(** * BookClub: the list view, the date helper and the spreadsheet import

    A shallow embedding of [src/App.jsx]: the date helper [parseDate], the
    store mutations [addBookToFirebase] and [editBook], the spreadsheet import
    [migrateFromGoogleSheet] and the list view [getDisplayBooks].

    Conventions of the embedding.
    - A JavaScript string is a list of character codes, [str]; the
      development covers the ASCII range (case mapping and white space of
      code units above 127 are not modelled).
    - A [Date] object is its time value: [Some t] for [t] milliseconds since
      the epoch, [None] for an invalid date ([NaN]).
    - The host's part of [Date] (the implementation-defined [Date.parse], the
      local time zone, the locale's date format) is a parameter of the
      development, the section variables of [Section Host].
    - Asynchronous functions are run to completion; what they do to the
      outside (dialogs, state setters, store requests) is the list of events
      they emit, in order. *)

From Stdlib Require Import ZArith Ascii String DecimalString List Permutation Sorted Bool Lia.
From stdpp Require Import base list gmap strings infinite sorting.
Import ListNotations.
Local Open Scope Z_scope.

(** ** Strings *)

Abbreviation str := (list ascii).

(** A string literal of the source. *)
Definition lit (s : string) : str := list_ascii_of_string s.

Definition dquote : ascii := "034"%char.
Definition comma : ascii := ","%char.

Definition code (c : ascii) : N := N_of_ascii c.

(** [String.prototype.toLowerCase] and [toUpperCase], on ASCII. *)
Definition lowerChar (c : ascii) : ascii :=
  if ((65 <=? code c) && (code c <=? 90))%N then ascii_of_N (code c + 32) else c.

Definition upperChar (c : ascii) : ascii :=
  if ((97 <=? code c) && (code c <=? 122))%N then ascii_of_N (code c - 32) else c.

Definition toLowerCase (s : str) : str := map lowerChar s.

(** White space of [trim] and of the regular expression class [\s]:
    TAB, LF, VT, FF, CR and SPACE. *)
Definition isWhite (c : ascii) : bool :=
  (((9 <=? code c) && (code c <=? 13)) || (code c =? 32))%N.

Fixpoint trimStart (s : str) : str :=
  match s with
  | c :: r => if isWhite c then trimStart r else s
  | [] => []
  end.

Definition trimEnd (s : str) : str := rev (trimStart (rev s)).

Definition trim (s : str) : str := trimEnd (trimStart s).

Fixpoint startsWith (p s : str) : bool :=
  match p, s with
  | [], _ => true
  | a :: p', b :: s' => Ascii.eqb a b && startsWith p' s'
  | _ :: _, [] => false
  end.

(** [s.includes(t)]: [t] occurs in [s] as a contiguous run. *)
Fixpoint includes (s t : str) : bool :=
  startsWith t s ||
  match s with
  | [] => false
  | _ :: r => includes r t
  end.

(** [s.substring(0, n)]. *)
Definition substring0 (n : nat) (s : str) : str := firstn n s.

(** [parts.join(sep)]. *)
Fixpoint join (sep : str) (parts : list str) : str :=
  match parts with
  | [] => []
  | [p] => p
  | p :: rest => p ++ sep ++ join sep rest
  end.

(** [s.split(c)] for a one-character string separator. *)
Fixpoint splitCharAux (sep : ascii) (s cur : str) : list str :=
  match s with
  | [] => [rev cur]
  | c :: r =>
      if Ascii.eqb c sep then rev cur :: splitCharAux sep r []
      else splitCharAux sep r (c :: cur)
  end.

Definition splitChar (sep : ascii) (s : str) : list str := splitCharAux sep s [].

(** [s.split(/[\s-]+/)]: the separator is a maximal run of white space and
    hyphens.  [inSep] records that the scan is inside such a run, whose
    first character has already closed the field before it. *)
Definition isDateSep (c : ascii) : bool := isWhite c || Ascii.eqb c "-"%char.

Fixpoint splitRunsAux (s cur : str) (inSep : bool) : list str :=
  match s with
  | [] => [rev cur]
  | c :: r =>
      if isDateSep c then
        if inSep then splitRunsAux r [] true
        else rev cur :: splitRunsAux r [] true
      else splitRunsAux r (c :: cur) false
  end.

Definition splitDateParts (s : str) : list str := splitRunsAux s [] false.

(** ** Values that may be absent

    A property of a JavaScript object that holds a string, [null] or nothing
    at all. *)
Inductive JsStr : Type :=
  | Undefined
  | Null
  | Str (s : str).

#[global] Instance JsStr_eq_dec : EqDecision JsStr.
Proof. solve_decision. Defined.

(** [v || ''] for such a value. *)
Definition orEmpty (v : JsStr) : str :=
  match v with
  | Str s => s
  | _ => []
  end.

(** [!v]: absent values and the empty string are falsy. *)
Definition falsy (v : JsStr) : bool :=
  match v with
  | Str (_ :: _) => false
  | _ => true
  end.

(** ** Field splitting of the import

    A line is split with the regular expression [,(?=(?:(?:N*Q){2})*N*$)],
    where Q stands for the double quote and N for the class of every other
    character: at every comma whose lookahead accepts the rest of the line.
    [EvenQuoted] is the language of the lookahead, written out from the
    expression; [lookahead] decides it by counting. *)

Definition notQuote (c : ascii) : Prop := c <> dquote.

Inductive EvenQuoted : str -> Prop :=
  | EvenQuoted_tail (s : str) :
      Forall notQuote s -> EvenQuoted s
  | EvenQuoted_pair (a b rest : str) :
      Forall notQuote a -> Forall notQuote b -> EvenQuoted rest ->
      EvenQuoted (a ++ dquote :: b ++ dquote :: rest).

Fixpoint countQuotes (s : str) : nat :=
  match s with
  | [] => 0
  | c :: r => if Ascii.eqb c dquote then S (countQuotes r) else countQuotes r
  end.

Definition lookahead (rest : str) : bool := Nat.even (countQuotes rest).

Fixpoint csvSplitAux (s cur : str) : list str :=
  match s with
  | [] => [rev cur]
  | c :: r =>
      if Ascii.eqb c comma && lookahead r then rev cur :: csvSplitAux r []
      else csvSplitAux r (c :: cur)
  end.

Definition csvSplit (line : str) : list str := csvSplitAux line [].

(** [c.replace(/^Q|Q$/g, '')], Q the double quote: one leading and one
    trailing quote go. *)
Definition stripQuotes (c : str) : str :=
  let c1 := match c with
            | q :: r => if Ascii.eqb q dquote then r else c
            | [] => []
            end in
  match rev c1 with
  | q :: r => if Ascii.eqb q dquote then rev r else c1
  | [] => c1
  end.

Definition cleanField (c : str) : str := trim (stripQuotes c).

Definition splitRow (row : str) : list str := map cleanField (csvSplit row).

Definition splitHeader (row : str) : list str :=
  map (fun h => toLowerCase (trim (stripQuotes h))) (csvSplit row).

(** ** Dates

    The time value of a [Date]: milliseconds since the epoch, or [None] for
    an invalid date.  The arithmetic is that of the language standard
    (MakeDay, MakeDate, TimeClip); below the clipping bound every quantity
    is an integer that a double holds exactly, and above it the result is
    invalid whatever the rounding, so [Z] computes the same dates. *)

Abbreviation TimeValue := (option Z).

Definition msPerDay : Z := 86400000.
Definition maxTime : Z := 8640000000000000.

Definition TimeClip (t : TimeValue) : TimeValue :=
  match t with
  | Some v => if Z.abs v <=? maxTime then Some v else None
  | None => None
  end.

Definition DayFromYear (y : Z) : Z :=
  365 * (y - 1970) + (y - 1969) / 4 - (y - 1901) / 100 + (y - 1601) / 400.

Definition InLeapYear (y : Z) : bool :=
  (y mod 4 =? 0) && (negb (y mod 100 =? 0) || (y mod 400 =? 0)).

(** Days from the start of the year to the start of month [m] (0 to 11). *)
Definition monthOffset (leap : bool) (m : Z) : Z :=
  let l := if leap then 1 else 0 in
  match m with
  | 0 => 0
  | 1 => 31
  | 2 => 59 + l
  | 3 => 90 + l
  | 4 => 120 + l
  | 5 => 151 + l
  | 6 => 181 + l
  | 7 => 212 + l
  | 8 => 243 + l
  | 9 => 273 + l
  | 10 => 304 + l
  | _ => 334 + l
  end.

Definition MakeDay (year month date : Z) : Z :=
  let ym := year + month / 12 in
  let mn := month mod 12 in
  DayFromYear ym + monthOffset (InLeapYear ym) mn + date - 1.

Definition MakeDate (day time : Z) : Z := day * msPerDay + time.

(** The [Date] constructor reads a year from 0 to 99 as 1900 to 1999. *)
Definition MakeFullYear (y : Z) : Z :=
  if (0 <=? y) && (y <=? 99) then 1900 + y else y.

(** [d.getTime() !== new Date(0).getTime()]; an invalid date is not the
    epoch. *)
Definition notEpoch (d : TimeValue) : bool :=
  match d with
  | Some t => negb (t =? 0)
  | None => true
  end.

(** [a > b] on dates: a comparison of time values, false on [NaN]. *)
Definition dateGt (a b : TimeValue) : bool :=
  match a, b with
  | Some x, Some y => y <? x
  | _, _ => false
  end.

(** [a - b] on dates. *)
Definition dateSub (a b : TimeValue) : TimeValue :=
  match a, b with
  | Some x, Some y => Some (x - y)
  | _, _ => None
  end.

(** [d.setTime(d.getTime() + ms)]. *)
Definition addMillis (d : TimeValue) (ms : Z) : TimeValue :=
  TimeClip (option_map (fun t => t + ms) d).

(** ** Exceptions and events *)

Inductive Exn : Type :=
  | RangeError                (* [toISOString] of an invalid date *)
  | JsError (msg : str)       (* [new Error(msg)] *)
  | Rejected (msg : str).     (* a request the network or the store refused *)

Definition message (e : Exn) : str :=
  match e with
  | RangeError => lit "Invalid time value"
  | JsError m => m
  | Rejected m => m
  end.

(** [d.toISOString()]: throws on an invalid date.  The text it returns is
    kept as the instant it denotes. *)
Definition toISOString (d : TimeValue) : Exn + Z :=
  match d with
  | Some t => inr t
  | None => inl RangeError
  end.

(** [parseInt(s)] without a radix: optional white space and sign, an
    optional [0x] prefix, then the longest run of digits; [None] is [NaN]. *)
Definition digitVal (radix : Z) (c : ascii) : option Z :=
  let n := Z.of_N (code c) in
  let v := if (48 <=? n) && (n <=? 57) then Some (n - 48)
           else if (97 <=? n) && (n <=? 122) then Some (n - 87)
           else if (65 <=? n) && (n <=? 90) then Some (n - 55)
           else None in
  match v with
  | Some d => if d <? radix then Some d else None
  | None => None
  end.

Fixpoint digitsPrefix (radix : Z) (s : str) (acc : option Z) : option Z :=
  match s with
  | c :: r =>
      match digitVal radix c with
      | Some d => digitsPrefix radix r (Some (radix * default 0 acc + d))
      | None => acc
      end
  | [] => acc
  end.

Definition parseInt (s : str) : option Z :=
  let s1 := trimStart s in
  let '(sign, s2) :=
    match s1 with
    | c :: r => if Ascii.eqb c "-"%char then (-1, r)
                else if Ascii.eqb c "+"%char then (1, r) else (1, s1)
    | [] => (1, [])
    end in
  let '(radix, s3) :=
    match s2 with
    | z :: x :: r =>
        if Ascii.eqb z "0"%char && (Ascii.eqb x "x"%char || Ascii.eqb x "X"%char)
        then (16, r) else (10, s2)
    | _ => (10, s2)
    end in
  option_map (Z.mul sign) (digitsPrefix radix s3 None).

(** The table of [parseDate].  A key is at most three lower-case letters, so
    no inherited property of the object literal answers a lookup. *)
Definition months : list (str * Z) :=
  [ (lit "jan", 0); (lit "feb", 1); (lit "mar", 2); (lit "apr", 3);
    (lit "may", 4); (lit "jun", 5); (lit "jul", 6); (lit "aug", 7);
    (lit "sep", 8); (lit "oct", 9); (lit "nov", 10); (lit "dec", 11) ].

Fixpoint lookupKey (k : str) (table : list (str * Z)) : option Z :=
  match table with
  | [] => None
  | (k', v) :: rest => if bool_decide (k = k') then Some v else lookupKey k rest
  end.

(** [re.test(s)] for a case-insensitive alternation of literal words: some
    word matches at some position, characters compared after
    canonicalisation to upper case. *)
Fixpoint matchAtCI (pat s : str) : bool :=
  match pat, s with
  | [], _ => true
  | p :: pat', c :: s' => Ascii.eqb (upperChar p) (upperChar c) && matchAtCI pat' s'
  | _ :: _, [] => false
  end.

Fixpoint regexTestWords (words : list str) (s : str) : bool :=
  existsb (fun w => matchAtCI w s) words ||
  match s with
  | [] => false
  | _ :: r => regexTestWords words r
  end.

Definition monthWords : list str :=
  map lit ["jan"; "feb"; "mar"; "apr"; "may"; "jun";
           "jul"; "aug"; "sep"; "oct"; "nov"; "dec"]%string.

(** ** The host

    What the program takes from the JavaScript engine and its settings:
    [Date.parse] on a string (outside the standard's own format the result
    is the implementation's choice; [None] is [NaN]), the offset of local
    time from UTC around a local time, and the locale's short date text. *)
Class Host : Type := {
  DateParse : str -> TimeValue;
  LocalTZA : Z -> Z;
  toLocaleDateString : Z -> str
}.

Section DateHelper.
Context {host : Host}.

(** [new Date(s)] for a string. *)
Definition newDateOfString (s : str) : TimeValue := TimeClip (DateParse s).

(** [new Date(year, month, date)]: a local time, converted to UTC. *)
Definition newDateYMD (year month date : Z) : TimeValue :=
let local := MakeDate (MakeDay (MakeFullYear year) month date) 0 in
TimeClip (Some (local - LocalTZA local)).

Definition parseDate (dateStr : JsStr) : TimeValue :=
if falsy dateStr then Some 0
else
  let s := orEmpty dateStr in
  match newDateOfString s with
  | Some t => Some t
  | None =>
      let parts := splitDateParts (trim s) in
      if (2 <=? length parts)%nat then
        let monthName := substring0 3 (toLowerCase (nth 0 parts [])) in
        let year := parseInt (List.last parts []) in
        match lookupKey monthName months, year with
        | Some m, Some y => newDateYMD y m 1
        | _, _ => Some 0
        end
      else Some 0
  end.
End DateHelper.

(** ** Records of the collection *)

(** [author_name] is an array of names, or a single value. *)
Inductive AuthorField : Type :=
  | AuthorArray (names : list str)
  | AuthorScalar (v : JsStr).

(** The fields of a document of the collection [books].  [sortDate] holds
    the time value [new Date] reads from the stored text ([None] when the
    text is no date); the three catalogue links, functions of title and
    author, are left out. *)
Record BookData : Type := {
  title : str;
  author_name : AuthorField;
  coverUrl : JsStr;
  isbn : JsStr;
  status : JsStr;
  sortDate : TimeValue;
  displayDate : JsStr;
  proposer : JsStr;
  comments : JsStr;
  attemptedV2 : bool
}.

(** An entry of [myBooks] or of [searchResults]: the fields and the key. *)
Record Book : Type := {
  key : str;
  data : BookData
}.

(** The partial document [editBook] hands to [updateDoc]. *)
Record BookUpdate : Type := {
  newDisplayDate : str;
  newProposer : str;
  newComments : str;
  newSortDate : TimeValue
}.

Record User : Type := { email : str }.

Inductive Event : Type :=
  | Alert (msg : str)
  | ConsoleError (msg : str)
  | SetShowLogin (b : bool)
  | SetIsLoading (b : bool)
  | SetActiveTab (tab : str)
  | SetSearchQuery (q : str)
  | AddDoc (d : BookData) (accepted : bool)
  | UpdateDoc (k : str) (u : BookUpdate) (accepted : bool)
  | DeleteDoc (k : str) (accepted : bool).

(** ** Running a handler: the events so far, then a value or an exception *)

Definition Eff (A : Type) : Type := list Event * (Exn + A).

Definition ret {A} (x : A) : Eff A := ([], inr x).

Definition bind {A B} (m : Eff A) (f : A -> Eff B) : Eff B :=
  match m with
  | (ev, inl e) => (ev, inl e)
  | (ev, inr x) => let '(ev', r) := f x in (ev ++ ev', r)
  end.

Definition emit (e : Event) : Eff unit := ([e], inr tt).

Definition throw {A} (e : Exn) : Eff A := ([], inl e).

Definition liftExn {A} (r : Exn + A) : Eff A := ([], r).

(** [try { m } catch (e) { h e }]. *)
Definition tryCatch {A} (m : Eff A) (h : Exn -> Eff A) : Eff A :=
  match m with
  | (ev, inl e) => let '(ev', r) := h e in (ev ++ ev', r)
  | ok => ok
  end.

(** [try { m } finally { k }], for a [k] that does not throw. *)
Definition andFinally {A} (m : Eff A) (k : list Event) : Eff A :=
  (fst m ++ k, snd m).

Declare Scope eff_scope.
Delimit Scope eff_scope with eff.
Notation "x <- m ;; k" := (bind m (fun x => k))
  (at level 100, m at next level, right associativity) : eff_scope.
Notation "m ;; k" := (bind m (fun _ => k))
  (at level 100, right associativity) : eff_scope.

Definition events {A} (m : Eff A) : list Event := fst m.
Definition outcome {A} (m : Eff A) : Exn + A := snd m.

(** [await] of a store request: the request is issued, and a refusal is an
    exception. *)
Definition await (e : Event) (accepted : bool) (why : str) : Eff unit :=
  (emit e ;; if accepted then ret tt else throw (Rejected why))%eff.

(** ** The store

    The remote collection, as far as the requests of this program change it:
    a request the store accepted is applied, a refused one is not. *)

#[global] Instance ascii_inhabited : Inhabited ascii := populate "a"%char.

Definition applyUpdate (u : BookUpdate) (d : BookData) : BookData :=
  {| title := title d;
     author_name := author_name d;
     coverUrl := coverUrl d;
     isbn := isbn d;
     status := status d;
     sortDate := newSortDate u;
     displayDate := Str (newDisplayDate u);
     proposer := Str (newProposer u);
     comments := Str (newComments u);
     attemptedV2 := attemptedV2 d |}.

Definition storeStep (s : gmap str BookData) (e : Event) : gmap str BookData :=
  match e with
  | AddDoc d true => <[fresh (dom s : gset str) := d]> s
  | UpdateDoc k u true => alter (applyUpdate u) k s
  | DeleteDoc k true => delete k s
  | _ => s
  end.

Definition runStore (tr : list Event) (s : gmap str BookData) : gmap str BookData :=
  fold_left storeStep tr s.

Definition isWrite (e : Event) : bool :=
  match e with
  | AddDoc _ _ | UpdateDoc _ _ _ | DeleteDoc _ _ => true
  | _ => false
  end.

(** ** Identity *)

Definition ADMIN_EMAILS : list str := [lit "sharon@tutorshiba.com"].

Definition isAdmin (currentUser : option User) : bool :=
  match currentUser with
  | None => false
  | Some u =>
      existsb (fun e => bool_decide (toLowerCase e = toLowerCase (email u)))
              ADMIN_EMAILS
  end.

(** ** Array helpers *)

(** [l.findIndex(p)]; [None] is the source's -1. *)
Fixpoint findIndex {A} (p : A -> bool) (l : list A) : option nat :=
  match l with
  | [] => None
  | x :: r => if p x then Some 0%nat else option_map S (findIndex p r)
  end.

(** [cols[k]]: [undefined] past the end. *)
Definition colAt (cols : list str) (k : nat) : JsStr :=
  match nth_error cols k with
  | Some s => Str s
  | None => Undefined
  end.

(** [v || null]. *)
Definition orNull (v : JsStr) : JsStr := if falsy v then Null else v.

(** [l.sort(cmp)].  The comparator returns a number, [None] for [NaN], which
    the sort reads as zero.  The sort is stable; it is written as a stable
    insertion sort, and for a comparator that orders the elements every
    stable sort returns the same array.  A comparator that answers [NaN]
    for some pairs orders nothing consistently, and the language leaves the
    order of the result open then: what is proved of the order of a sorted
    list is proved of lists whose compared sort dates are all valid. *)
Definition isPositive (v : TimeValue) : bool :=
  match v with
  | Some z => 0 <? z
  | None => false
  end.

Fixpoint insertBy {A} (cmp : A -> A -> TimeValue) (x : A) (l : list A) : list A :=
  match l with
  | [] => [x]
  | y :: r => if isPositive (cmp x y) then y :: insertBy cmp x r else x :: l
  end.

Definition jsSort {A} (cmp : A -> A -> TimeValue) (l : list A) : list A :=
  foldr (insertBy cmp) [] l.

(** The decimal text of a count, as a template literal prints it. *)
Definition showNat (n : nat) : str :=
  lit (DecimalString.NilEmpty.string_of_uint (Nat.to_uint n)).

(** ** The list view *)

Definition authorText (a : AuthorField) : str :=
  match a with
  | AuthorArray names => join (lit " ") names
  | AuthorScalar v => orEmpty v
  end.

Definition getDisplayBooks (activeTab : str) (searchResults myBooks : list Book)
    (filterQuery : str) : list Book :=
  if bool_decide (activeTab = lit "search") then searchResults
  else
    let books :=
      List.filter (fun b =>
        bool_decide (status (data b) = Str activeTab) &&
        (includes (toLowerCase (title (data b))) (toLowerCase filterQuery) ||
         includes (toLowerCase (authorText (author_name (data b))))
                  (toLowerCase filterQuery))) myBooks in
    if bool_decide (activeTab = lit "scheduled") then
      jsSort (fun a b => dateSub (sortDate (data a)) (sortDate (data b))) books
    else
      jsSort (fun a b => dateSub (sortDate (data b)) (sortDate (data a))) books.

(** ** The spreadsheet import: columns and rows *)

Record Columns : Type := {
  tI : nat;
  aI : nat;
  dateIdx : option nat;
  proposerIdx : option nat;
  isbnIdx : option nat;
  commentsIdx : option nat
}.

Definition identifyColumns (headers : list str) : Columns :=
  let titleIdx := findIndex (fun h => includes h (lit "title") || includes h (lit "book")) headers in
  let authorIdx := findIndex (fun h => includes h (lit "author")) headers in
  {| tI := default 0%nat titleIdx;
     aI := default 1%nat authorIdx;
     dateIdx := findIndex (fun h => includes h (lit "month") || includes h (lit "read")
                                    || includes h (lit "year")) headers;
     proposerIdx := findIndex (fun h => includes h (lit "proposer") || includes h (lit "host")) headers;
     isbnIdx := findIndex (fun h => includes h (lit "isbn")) headers;
     commentsIdx := findIndex (fun h => includes h (lit "comment") || includes h (lit "note")) headers |}.

Inductive RowOutcome : Type :=
  | Skipped
  | Pushed (d : BookData)
  | Thrown (e : Exn).

(** What the loop of the import carries from row to row: the set
    [existingTitles], the drafts handed to [addDoc] so far, in order (their
    number is the source's [count]), and the exception that ended the loop,
    if one did. *)
Record LoopResult : Type := {
  finalTitles : gset str;
  batch : list BookData;
  thrown : option Exn
}.

Section Handlers.
Context {host : Host}.

(** One turn of the loop, for the row at line [i]; [now] is the clock the
  turn reads. *)
Definition importRow (c : Columns) (now : Z) (i : nat) (row : str)
  (existingTitles : gset str) : gset str * RowOutcome :=
let cols := splitRow row in
if (length cols <=? Nat.max (tI c) (aI c))%nat then (existingTitles, Skipped)
else
  let title := nth (tI c) cols [] in
  let author := nth (aI c) cols [] in
  if falsy (Str title) then (existingTitles, Skipped)
  else
    let normalizedTitle := trim (toLowerCase title) in
    if bool_decide (normalizedTitle ∈ existingTitles) then (existingTitles, Skipped)
    else
      let existingTitles' := {[normalizedTitle]} ∪ existingTitles in
      let monthYear := match dateIdx c with
                       | Some k => orEmpty (colAt cols k)
                       | None => []
                       end in
      let proposer := match proposerIdx c with
                      | Some k => orEmpty (colAt cols k)
                      | None => []
                      end in
      let isbn := match isbnIdx c with
                  | Some k => colAt cols k
                  | None => Null
                  end in
      let comments := match commentsIdx c with
                      | Some k => colAt cols k
                      | None => Str []
                      end in
      let dateObj := parseDate (Str monthYear) in
      let hasMonth := regexTestWords monthWords monthYear in
      let status :=
        if negb hasMonth then lit "suggested"
        else if dateGt dateObj (Some now) then lit "scheduled"
        else lit "read" in
      let dateObj' := addMillis dateObj (Z.of_nat i * 1000) in
      match toISOString dateObj' with
      | inl e => (existingTitles', Thrown e)
      | inr iso =>
          (existingTitles',
           Pushed {| title := title;
                     author_name := AuthorArray [author];
                     isbn := isbn;
                     coverUrl := Null;
                     status := Str status;
                     sortDate := Some iso;
                     displayDate := Str monthYear;
                     proposer := Str proposer;
                     comments := comments;
                     attemptedV2 := false |})
      end.

(** The loop over the rows from line [i] on; [clock k] is the time the
  turn of line [k] reads. *)
Fixpoint importLoop (c : Columns) (clock : nat -> Z) (i : nat) (rows : list str)
  (existingTitles : gset str) (pushed : list BookData) : LoopResult :=
match rows with
| [] => {| finalTitles := existingTitles; batch := pushed; thrown := None |}
| row :: rest =>
    match importRow c (clock i) i row existingTitles with
    | (seen, Skipped) => importLoop c clock (S i) rest seen pushed
    | (seen, Pushed d) => importLoop c clock (S i) rest seen (pushed ++ [d])
    | (seen, Thrown e) =>
        {| finalTitles := seen; batch := pushed; thrown := Some e |}
    end
end.

(** The parsing part of the import: from the text of the sheet and the
  records of [myBooks] to the drafts. *)
Definition importSheet (clock : nat -> Z) (text : str) (myBooks : list Book)
  : Exn + LoopResult :=
let allRows := splitChar "010"%char text in
if (length allRows <? 2)%nat then inl (JsError (lit "No data found"))
else
  let headers := splitHeader (nth 0 allRows []) in
  let c := identifyColumns headers in
  let existingTitles : gset str :=
    list_to_set (map (fun b => trim (toLowerCase (title (data b)))) myBooks) in
  inr (importLoop c clock 1 (tl allRows) existingTitles []).
End Handlers.

(** ** The actions

    The answers of the dialogs are arguments: a [confirm] answers with a
    boolean, a [prompt] with the text entered or [None] when it is
    cancelled.  The store's reply to a request is an argument as well. *)
Section Actions.
Context {host : Host}.
Local Open Scope eff_scope.

Definition addBookToFirebase (user : option User) (now : Z) (book : Book)
  (status : str) (confirmed : bool)
  (inputDate inputProposer inputComments : option str) (accepted : bool)
  : Eff unit :=
match user with
| None =>
    emit (Alert (lit "Please log in to add books!")) ;;
    emit (SetShowLogin true)
| Some u =>
    if negb (bool_decide (status = lit "suggested")) && negb (isAdmin user) then
      emit (Alert (lit "Only admins can add to the Read or Scheduled lists."))
    else if confirmed then
      let displayDate0 :=
        if bool_decide (status = lit "read") then toLocaleDateString now else [] in
      let sortDate0 := now in
      let proposer0 := hd [] (splitChar "@"%char (email u)) in
      entered <-
        match inputDate with
        | Some d =>
            let parsed := parseDate (Str d) in
            if notEpoch parsed then
              iso <- liftExn (toISOString parsed) ;; ret (d, iso)
            else ret (d, sortDate0)
        | None => ret (displayDate0, sortDate0)
        end ;;
      let displayDate := fst entered in
      let sortDate := snd entered in
      let proposer := default proposer0 inputProposer in
      let comments := default [] inputComments in
      tryCatch
        (await (AddDoc {| title := title (data book);
                          author_name := author_name (data book);
                          coverUrl := orNull (coverUrl (data book));
                          isbn := orNull (isbn (data book));
                          status := Str status;
                          sortDate := Some sortDate;
                          displayDate := Str displayDate;
                          proposer := Str proposer;
                          comments := Str comments;
                          attemptedV2 := negb (falsy (coverUrl (data book))) |}
                       accepted)
               accepted (lit "addDoc") ;;
         emit (Alert (lit "Book added!")) ;;
         emit (SetActiveTab status) ;;
         emit (SetSearchQuery []))
        (fun e =>
           emit (ConsoleError (lit "Error adding book: ")) ;;
           emit (Alert (lit "Error adding book.")))
    else ret tt
end.

Definition editBook (user : option User) (book : Book)
  (inputDate inputProposer inputComments : option str) (accepted : bool)
  : Eff unit :=
if negb (isAdmin user) then ret tt
else
  match inputDate with
  | None => ret tt
  | Some newDisplayDate =>
  match inputProposer with
  | None => ret tt
  | Some newProposer =>
  match inputComments with
  | None => ret tt
  | Some newComments =>
      newSortDate <-
        (if negb (bool_decide (Str newDisplayDate = displayDate (data book))) then
           let parsed := parseDate (Str newDisplayDate) in
           if notEpoch parsed then
             iso <- liftExn (toISOString parsed) ;; ret (Some iso)
           else ret (sortDate (data book))
         else ret (sortDate (data book))) ;;
      tryCatch
        (await (UpdateDoc (key book)
                  {| newDisplayDate := newDisplayDate;
                     newProposer := newProposer;
                     newComments := newComments;
                     newSortDate := newSortDate |}
                  accepted)
               accepted (lit "updateDoc"))
        (fun e =>
           emit (ConsoleError (lit "Error updating book: ")) ;;
           emit (Alert (lit "Error updating book.")))
  end end end.

Definition removeBook (user : option User) (bookKey : str)
  (confirmed accepted : bool) : Eff unit :=
if negb (isAdmin user) then ret tt
else if confirmed then await (DeleteDoc bookKey accepted) accepted (lit "deleteDoc")
else ret tt.

(** [fetched] is what the download of the sheet gave: its text, or the
  failure of the request.  [accepted d] tells whether the store takes
  the draft [d].  The requests are sent while the rows are read and are
  awaited together after the last row; a refusal is caught there, and its
  text is kept as [addDoc].  When a row throws, the requests sent so far
  are never awaited: the run has their [AddDoc] events with the answers
  of the store, and a refusal among them has no handler. *)
Definition migrateFromGoogleSheet (user : option User) (confirmed : bool)
  (fetched : Exn + str) (myBooks : list Book) (clock : nat -> Z)
  (accepted : BookData -> bool) : Eff unit :=
if negb (isAdmin user) then ret tt
else if negb confirmed then ret tt
else
  emit (SetIsLoading true) ;;
  andFinally
    (tryCatch
       (text <- liftExn fetched ;;
        r <- liftExn (importSheet clock text myBooks) ;;
        (map (fun d => AddDoc d (accepted d)) (batch r), inr tt) ;;
        match thrown r with
        | Some e => throw e
        | None =>
            (if forallb accepted (batch r) then ret tt
             else throw (Rejected (lit "addDoc"))) ;;
            emit (Alert
              (if (0 <? length (batch r))%nat
               then lit "Successfully imported " ++ showNat (length (batch r))
                      ++ lit " new books!"
               else lit "No new books found to import."))
        end)
       (fun err =>
          emit (ConsoleError (lit "Migration failed")) ;;
          emit (Alert (lit "Migration failed: " ++ message err))))
    [SetIsLoading false].
End Actions.


(** ** Vocabulary of the properties *)

(** [t] occurs in [s]. *)
Definition Contains (s t : str) : Prop := exists pre post, s = pre ++ t ++ post.

(** [t] occurs in [s] when case is ignored. *)
Definition ContainsCI (s t : str) : Prop := Contains (toLowerCase s) (toLowerCase t).

(** The text holds one of the twelve three-letter month names, in any case,
    anywhere. *)
Definition HasMonthToken (text : str) : Prop :=
  exists w, In w monthWords /\ Contains (toLowerCase text) w.

(** The raw text of the date column of a row: empty when the sheet has no
    date column or the row is too short to reach it. *)
Definition dateColumnText (c : Columns) (row : str) : str :=
  match dateIdx c with
  | Some k => orEmpty (colAt (splitRow row) k)
  | None => []
  end.

(** The date text of a draft parses to [t], and its sort date is [t] moved
    by a thousand milliseconds for each line down to the line [k] of its
    row. *)
Definition OffsetByRow {host : Host} (k : nat) (d : BookData) : Prop :=
  exists t, parseDate (displayDate d) = Some t /\
            sortDate d = Some (t + Z.of_nat k * 1000).

(** The columns the import reads off the first line of the sheet. *)
Definition sheetColumns (text : str) : Columns :=
  identifyColumns (splitHeader (nth 0 (splitChar "010"%char text) [])).

(** The draft [d] comes from the line [k] of the sheet: the sheet has a
    line of that index below its header, and the turn of the loop for that
    line, run with that index, has pushed [d]. *)
Definition DraftOfRow {host : Host} (clock : nat -> Z) (text : str) (k : nat)
    (d : BookData) : Prop :=
  (1 <= k)%nat /\
  exists (row : str) (seen seen' : gset str),
    splitChar "010"%char text !! k = Some row /\
    importRow (sheetColumns text) (clock k) k row seen = (seen', Pushed d).

(** The key of the import's duplicate check. *)
Definition normTitle (d : BookData) : str := trim (toLowerCase (title d)).

(** The drafts an import produced: none when it failed before its loop. *)
Definition draftsOf (r : Exn + LoopResult) : list BookData :=
  match r with
  | inr l => batch l
  | inl _ => []
  end.

(** The documents a run asked the store to add, in the order of the
    requests. *)
Fixpoint addedDocs (tr : list Event) : list BookData :=
  match tr with
  | [] => []
  | AddDoc d _ :: rest => d :: addedDocs rest
  | _ :: rest => addedDocs rest
  end.

(** [x] stands before [y] in [l]. *)
Definition Precedes {A} (x y : A) (l : list A) : Prop :=
  exists l1 l2 l3, l = l1 ++ x :: l2 ++ y :: l3.

(** Every character, for case analyses by computation. *)
Definition allAscii : list ascii := map ascii_of_nat (seq 0 256).

Definition isLowerLetter (c : ascii) : bool :=
  ((97 <=? code c) && (code c <=? 122))%N.

(** The order of the list view: [a] is not later than [b], both sort dates
    being instants. *)
Definition DateLe (a b : Book) : Prop :=
  match sortDate (data a), sortDate (data b) with
  | Some x, Some y => x <= y
  | _, _ => False
  end.

Definition DateGe (a b : Book) : Prop := DateLe b a.

(** The sort date of the record is an instant. *)
Definition validDate (b : Book) : Prop := is_Some (sortDate (data b)).

(** The record belongs to the tab and its title or its author text holds the
    filter text, case ignored. *)
Definition Matches (activeTab filterQuery : str) (b : Book) : Prop :=
  status (data b) = Str activeTab /\
  (ContainsCI (title (data b)) filterQuery \/
   ContainsCI (authorText (author_name (data b))) filterQuery).

(** What [editBook] reports when the store refuses its request. *)
Definition editFailure (accepted : bool) : list Event :=
  if accepted then []
  else [ConsoleError (lit "Error updating book: "); Alert (lit "Error updating book.")].

(** ** Sample data

    A host whose generic parser takes no text, as the engines the fallback
    of [parseDate] was written for treat a month and a year, set to UTC. *)
Definition plainHost : Host :=
  {| DateParse := fun _ => None;
     LocalTZA := fun _ => 0;
     toLocaleDateString := fun _ => lit "11/3/2026" |}.

Definition newline : ascii := "010"%char.

(** A clock that stands at 3 November 2026. *)
Definition sampleClock (i : nat) : Z := 1793664000000.

(** A sheet with two books of March 2020, a repeat of the first title, a
    book of 2099 and a book without a date. *)
Definition sampleSheet : str :=
  lit "Title,Author,Month" ++ [newline] ++
  lit "Dune,Frank Herbert,March 2020" ++ [newline] ++
  lit "Emma,Jane Austen,March 2020" ++ [newline] ++
  lit " dune ,Somebody,May 2021" ++ [newline] ++
  lit "Project Hail Mary,Andy Weir,December 2099" ++ [newline] ++
  lit "Untitled idea,?,".

Definition draft (t a status monthYear : string) (sort : Z) : BookData :=
  {| title := lit t;
     author_name := AuthorArray [lit a];
     coverUrl := Null;
     isbn := Null;
     status := Str (lit status);
     sortDate := Some sort;
     displayDate := Str (lit monthYear);
     proposer := Str [];
     comments := Str [];
     attemptedV2 := false |}.

Definition duneDraft : BookData :=
  draft "Dune" "Frank Herbert" "read" "March 2020" 1583020801000.

Definition emmaDraft : BookData :=
  draft "Emma" "Jane Austen" "read" "March 2020" 1583020802000.

Definition sampleAdmin : option User := Some {| email := lit "Sharon@TutorShiba.com" |}.
Definition sampleMember : option User := Some {| email := lit "reader@example.org" |}.

(** The two books of March 2020 alone. *)
Definition marchSheet : str :=
  lit "Title,Author,Month" ++ [newline] ++
  lit "Dune,Frank Herbert,March 2020" ++ [newline] ++
  lit "Emma,Jane Austen,March 2020".

Definition hailMaryDraft : BookData :=
  draft "Project Hail Mary" "Andy Weir" "scheduled" "December 2099" 4099766404000.

(** A draft as the snapshot shows it once the store has given it a key. *)
Definition stored (k : string) (d : BookData) : Book := {| key := lit k; data := d |}.

Definition sampleColumns : Columns :=
  identifyColumns (splitHeader (lit "Title,Author,Month")).

(** A sheet whose second book carries a year past the range of [Date]. *)
Definition farYearSheet : str :=
  lit "Title,Author,Month" ++ [newline] ++
  lit "Dune,Frank Herbert,March 2020" ++ [newline] ++
  lit "Emma,Jane Austen,Jan 999999999".

(** ** Further vocabulary *)

(** A request that changes or removes a document of the store. *)
Definition isOverwrite (e : Event) : bool :=
  match e with
  | UpdateDoc _ _ true | DeleteDoc _ true => true
  | _ => false
  end.

(** The documents of a run that the store took. *)
Fixpoint acceptedDocs (tr : list Event) : list BookData :=
  match tr with
  | [] => []
  | AddDoc d true :: rest => d :: acceptedDocs rest
  | _ :: rest => acceptedDocs rest
  end.

(** What [addBookToFirebase] reports after its request. *)
Definition addReport (status : str) (accepted : bool) : list Event :=
  if accepted then [Alert (lit "Book added!"); SetActiveTab status; SetSearchQuery []]
  else [ConsoleError (lit "Error adding book: "); Alert (lit "Error adding book.")].

(** The number a tab shows beside its name:
    [myBooks.filter(b => b.status === tab).length]. *)
Definition tabCount (tab : str) (myBooks : list Book) : nat :=
  length (List.filter (fun b => bool_decide (status (data b) = Str tab)) myBooks).

(** The key under which a row enters the duplicate check of the import:
    none for a row too short for its title and author columns or with an
    empty title. *)
Definition rowKey (c : Columns) (row : str) : option str :=
  let cols := splitRow row in
  if (length cols <=? Nat.max (tI c) (aI c))%nat then None
  else if falsy (Str (nth (tI c) cols [])) then None
  else Some (trim (toLowerCase (nth (tI c) cols []))).

(** The number of occurrences of a character. *)
Fixpoint countChar (c : ascii) (s : str) : nat :=
  match s with
  | [] => 0
  | x :: r => if Ascii.eqb x c then S (countChar c r) else countChar c r
  end.


(** What the import reports when it fails, and when it succeeds with [n]
    drafts. *)
Definition failReport (e : Exn) : list Event :=
  [ConsoleError (lit "Migration failed"); Alert (lit "Migration failed: " ++ message e)].

Definition successMessage (n : nat) : str :=
  if (0 <? n)%nat then lit "Successfully imported " ++ showNat n ++ lit " new books!"
  else lit "No new books found to import.".

(** The shape of a draft of the import. *)
Definition WellFormedDraft (d : BookData) : Prop :=
  title d <> [] /\
  trim (title d) = title d /\
  (exists a, author_name d = AuthorArray [a]) /\
  coverUrl d = Null /\
  attemptedV2 d = false /\
  (status d = Str (lit "read") \/ status d = Str (lit "scheduled") \/
   status d = Str (lit "suggested")) /\
  (exists t, sortDate d = Some t /\ Z.abs t <= maxTime) /\
  (exists text, displayDate d = Str text) /\
  (exists p, proposer d = Str p).

(** ** The book search: the ISBN of a volume

    An entry of [industryIdentifiers], and the choice [executeSearch] makes
    among the entries: the first of type ISBN_13, or else the first of type
    ISBN_10; [null] when there is no list or no such entry. *)
Record Identifier : Type := {
  idType : str;
  identifier : JsStr
}.

Definition isbnOfVolume (industryIdentifiers : option (list Identifier)) : JsStr :=
  match industryIdentifiers with
  | Some ids =>
      let found :=
        match List.find (fun id => bool_decide (idType id = lit "ISBN_13")) ids with
        | Some id => Some id
        | None => List.find (fun id => bool_decide (idType id = lit "ISBN_10")) ids
        end in
      match found with
      | Some id => identifier id
      | None => Null
      end
  | None => Null
  end.

(** A header names the title column, the author column. *)
Definition isTitleHeader (h : str) : Prop :=
  Contains h (lit "title") \/ Contains h (lit "book").

Definition isAuthorHeader (h : str) : Prop := Contains h (lit "author").

(** [x] is the first element of [l] with the property [P], at index [i]. *)
Definition FirstAt {A} (P : A -> Prop) (l : list A) (i : nat) (x : A) : Prop :=
  l !! i = Some x /\ P x /\ forall j y, (j < i)%nat -> l !! j = Some y -> ~ P y.

(** * Properties *)

(** ** Strings *)

Lemma countQuotes_app (a b : str) :
  countQuotes (a ++ b) = (countQuotes a + countQuotes b)%nat.
Proof.
  induction a as [|c a IH]; simpl; [reflexivity|].
  destruct (Ascii.eqb c dquote); simpl; rewrite IH; reflexivity.
Qed.

Lemma countQuotes_notQuote (s : str) :
  Forall notQuote s -> countQuotes s = 0%nat.
Proof.
  induction 1 as [|c s Hc _ IH]; simpl; [reflexivity|].
  destruct (Ascii.eqb_spec c dquote) as [->|_]; [contradiction|exact IH].
Qed.

Lemma first_quote (s : str) (n : nat) :
  countQuotes s = S n ->
  exists a r, s = a ++ dquote :: r /\ Forall notQuote a /\ countQuotes r = n.
Proof.
  induction s as [|c s IH]; simpl; [discriminate|].
  destruct (Ascii.eqb_spec c dquote) as [->|Hc]; intros H.
  - exists [], s. repeat split; [constructor|congruence].
  - destruct (IH H) as (a & r & -> & Ha & Hr).
    exists (c :: a), r. repeat split; [constructor; assumption|assumption].
Qed.

(** The counting test decides the language of the lookahead. *)
Lemma lookahead_spec (rest : str) :
  lookahead rest = true <-> EvenQuoted rest.
Proof.
  unfold lookahead. split.
  - intros H. apply Nat.even_spec in H. destruct H as [k Hk].
    revert rest Hk. induction k as [|k IH]; intros rest Hk.
    + apply EvenQuoted_tail.
      induction rest as [|c r IHr]; [constructor|].
      simpl in Hk. destruct (Ascii.eqb_spec c dquote) as [->|Hc]; [lia|].
      constructor; [exact Hc|apply IHr; exact Hk].
    + destruct (first_quote rest (2 * k + 1)) as (a & r & -> & Ha & Hr); [lia|].
      destruct (first_quote r (2 * k)) as (b & r' & -> & Hb & Hr'); [lia|].
      apply EvenQuoted_pair; [assumption..|]. apply IH. lia.
  - induction 1 as [s Hs|a b rest Ha Hb _ IH].
    + rewrite (countQuotes_notQuote s Hs). reflexivity.
    + rewrite countQuotes_app. simpl. rewrite countQuotes_app. simpl.
      rewrite (countQuotes_notQuote a Ha), (countQuotes_notQuote b Hb). simpl.
      exact IH.
Qed.

Lemma csvSplitAux_nonempty (s cur : str) : csvSplitAux s cur <> [].
Proof.
  revert cur. induction s as [|c s IH]; intros cur; simpl; [discriminate|].
  destruct (Ascii.eqb c comma && lookahead s); [discriminate|apply IH].
Qed.

(** A field under construction only prefixes the first field found. *)
Lemma csvSplitAux_cur (s cur : str) :
  exists f fs, csvSplitAux s [] = f :: fs /\ csvSplitAux s cur = (rev cur ++ f) :: fs.
Proof.
  revert cur. induction s as [|c s IH]; intros cur; simpl.
  - exists [], []. rewrite app_nil_r. auto.
  - destruct (Ascii.eqb c comma && lookahead s).
    + exists [], (csvSplitAux s []). rewrite app_nil_r. auto.
    + destruct (IH [c]) as (g & gs & G0 & G1).
      destruct (IH (c :: cur)) as (f' & fs' & H0 & H2).
      rewrite G0 in H0. injection H0 as <- <-.
      exists ([c] ++ g), gs. split; [exact G1|].
      rewrite H2. simpl. rewrite <- app_assoc. reflexivity.
Qed.

(** Inside a quoted region no comma splits: the quote that closes the region
    leaves an odd number of quotes after each of its characters. *)
Lemma csvSplitAux_region (m b cur : str) :
  Forall notQuote m -> Nat.even (countQuotes b) = false ->
  csvSplitAux (m ++ b) cur = csvSplitAux b (rev m ++ cur).
Proof.
  intros Hm Hb. revert cur. induction Hm as [|c m Hc Hm IH]; intros cur; simpl.
  - reflexivity.
  - unfold lookahead. rewrite countQuotes_app, (countQuotes_notQuote m Hm). simpl.
    rewrite Hb, andb_false_r, IH, <- app_assoc. reflexivity.
Qed.

(** What follows a prefix with an even number of quotes does not change where
    the prefix splits. *)
Lemma csvSplitAux_prefix (a r cur : str) :
  Nat.even (countQuotes r) = true ->
  exists pre x, csvSplitAux a cur = pre ++ [x] /\
                csvSplitAux (a ++ r) cur = pre ++ csvSplitAux r (rev x).
Proof.
  intros Hr. revert cur. induction a as [|c a IH]; intros cur; simpl.
  - exists [], (rev cur). rewrite rev_involutive. auto.
  - assert (lookahead (a ++ r) = lookahead a) as ->.
    { unfold lookahead. rewrite countQuotes_app, Nat.even_add, Hr.
      destruct (Nat.even (countQuotes a)); reflexivity. }
    destruct (Ascii.eqb c comma && lookahead a).
    + destruct (IH []) as (pre & x & H1 & H2).
      exists (rev cur :: pre), x. rewrite H1, H2. auto.
    + apply IH.
Qed.

Lemma stripQuotes_enclosed (body : str) :
  stripQuotes (dquote :: body ++ [dquote]) = body.
Proof.
  unfold stripQuotes. simpl. rewrite rev_app_distr. simpl.
  apply rev_involutive.
Qed.

Lemma stripQuotes_notQuote (f : str) :
  Forall notQuote f -> stripQuotes f = f.
Proof.
  intros Hf. unfold stripQuotes.
  assert (match f with
          | q :: r => if Ascii.eqb q dquote then r else f
          | [] => []
          end = f) as ->.
  { destruct Hf as [|q r Hq _]; [reflexivity|].
    destruct (Ascii.eqb_spec q dquote); [contradiction|reflexivity]. }
  destruct (rev f) as [|q r] eqn:E; [reflexivity|].
  destruct (Ascii.eqb_spec q dquote) as [->|_]; [|reflexivity].
  exfalso. rewrite Forall_forall in Hf. apply (Hf dquote); [|reflexivity].
  apply list_elem_of_In, in_rev. rewrite E. left. reflexivity.
Qed.

(** The field splitting of the import does not split at a comma inside a
    properly paired quoted region: when the quotes before the region pair
    up and the quotes after it pair up, the region, with its two quotes and
    every comma in it, lies in one field, between the last field of what
    precedes it and the first field of what follows it.  A field that is
    exactly a pair of quotes around a text loses that pair and then its
    surrounding white space; a field without quotes loses its surrounding
    white space.  The line of the specification splits into exactly three
    fields. *)
Theorem csv_split_respects_quotes (a m b body f : str) :
  Forall notQuote m ->
  Nat.even (countQuotes a) = true ->
  Nat.even (countQuotes b) = true ->
  Forall notQuote f ->
  (exists pre x y post,
      csvSplit a = pre ++ [x] /\
      csvSplit b = y :: post /\
      csvSplit (a ++ dquote :: m ++ dquote :: b)
        = pre ++ (x ++ dquote :: m ++ dquote :: y) :: post) /\
  cleanField (dquote :: body ++ [dquote]) = trim body /\
  cleanField f = trim f /\
  splitRow ([dquote] ++ lit "Smith, John" ++ [dquote; comma; dquote]
              ++ lit "Title, With Comma" ++ [dquote; comma] ++ lit "2020")
    = [lit "Smith, John"; lit "Title, With Comma"; lit "2020"].
Proof.
  intros Hm _ Hb Hf. split; [|split; [|split]].
  - unfold csvSplit.
    destruct (csvSplitAux_prefix a (dquote :: m ++ dquote :: b) []) as (pre & x & H1 & H2).
    { simpl. rewrite countQuotes_app, (countQuotes_notQuote m Hm). simpl. exact Hb. }
    destruct (csvSplitAux_cur b (dquote :: rev m ++ dquote :: rev x))
      as (y & post & H3 & H4).
    exists pre, x, y, post. split; [exact H1|]. split; [exact H3|].
    rewrite H2. f_equal. simpl.
    rewrite csvSplitAux_region; [|exact Hm|].
    + simpl. rewrite H4. f_equal. simpl.
      rewrite rev_app_distr. simpl. rewrite !rev_involutive.
      rewrite <- !app_assoc. reflexivity.
    + change (countQuotes (dquote :: b)) with (S (countQuotes b)).
      rewrite Nat.even_succ, <- Nat.negb_even, Hb. reflexivity.
  - unfold cleanField. rewrite stripQuotes_enclosed. reflexivity.
  - unfold cleanField. rewrite (stripQuotes_notQuote f Hf). reflexivity.
  - vm_compute. reflexivity.
Qed.

Lemma csv_split_respects_quotes_witness :
  exists pre x y post,
    csvSplit (lit "k") = pre ++ [x] /\
    csvSplit (lit ",z") = y :: post /\
    csvSplit (lit "k" ++ dquote :: lit "a,b" ++ dquote :: lit ",z")
      = pre ++ (x ++ dquote :: lit "a,b" ++ dquote :: y) :: post.
Proof.
  apply (csv_split_respects_quotes (lit "k") (lit "a,b") (lit ",z") (lit " t ") (lit "2020")).
  - vm_compute. repeat constructor; discriminate.
  - reflexivity.
  - reflexivity.
  - vm_compute. repeat constructor; discriminate.
Defined.

(** The quotes are taken off before the white space is, and only at the
    two ends of the raw field.  So a closing quote with white space after
    it stays: of the quoted field only the opening quote goes. *)
Lemma trimStart_app_quote (body r : str) :
  trimStart (body ++ dquote :: r) = trimStart body ++ dquote :: r.
Proof.
  induction body as [|x l IH]; simpl; [reflexivity|].
  destruct (isWhite x); [exact IH|reflexivity].
Qed.

Lemma cleanField_quote_then_white (body : str) (w : ascii) :
  isWhite w = true ->
  cleanField (dquote :: body ++ [dquote; w]) = trimStart body ++ [dquote].
Proof.
  intros Hw.
  assert (Hq : Ascii.eqb w dquote = false).
  { destruct (Ascii.eqb_spec w dquote) as [->|]; [discriminate Hw|reflexivity]. }
  unfold cleanField, stripQuotes. simpl.
  rewrite rev_app_distr. simpl. rewrite Hq.
  unfold trim. rewrite trimStart_app_quote.
  unfold trimEnd. rewrite rev_app_distr. simpl. rewrite Hw. simpl.
  rewrite rev_involutive. reflexivity.
Qed.

(** C6, at the failing input.  The fields of a line do not always lose
    their enclosing pair of quotes.  The last field of a line that ends in
    a carriage return, which is every line but the last of a sheet with
    CR LF line ends once the text is split at LF, keeps its closing quote.
    A quoted field with a blank before and after it keeps both quotes, and
    one with a blank after it keeps the closing quote.  The commas inside
    the quotes split none of these lines. *)
Theorem splitRow_keeps_quote_before_white_space :
  splitRow (lit "Dune," ++ dquote :: lit "Herbert, Frank" ++ [dquote; "013"%char])
    = [lit "Dune"; lit "Herbert, Frank" ++ [dquote]] /\
  splitRow (lit "a, " ++ dquote :: lit "b" ++ dquote :: lit " ,c")
    = [lit "a"; dquote :: lit "b" ++ [dquote]; lit "c"] /\
  splitRow (dquote :: lit " Padded " ++ dquote :: lit " , x")
    = [lit "Padded " ++ [dquote]; lit "x"].
Proof. vm_compute. split; [reflexivity|]. split; reflexivity. Qed.

(** ** Normalised titles *)

Lemma isWhite_lowerChar (c : ascii) : isWhite (lowerChar c) = isWhite c.
Proof. destruct c as [[] [] [] [] [] [] [] []]; reflexivity. Qed.

Lemma trimStart_toLowerCase (s : str) :
  trimStart (toLowerCase s) = toLowerCase (trimStart s).
Proof.
  induction s as [|c s IH]; simpl; [reflexivity|].
  rewrite isWhite_lowerChar. destruct (isWhite c); [exact IH|reflexivity].
Qed.

(** Trimming and lower-casing commute, so the trimmed, lower-cased title is
    the key the import computes. *)
Lemma trim_toLowerCase (s : str) :
  trim (toLowerCase s) = toLowerCase (trim s).
Proof.
  assert (Hrev : forall x, rev (toLowerCase x) = toLowerCase (rev x)).
  { intros x. unfold toLowerCase. symmetry. apply map_rev. }
  unfold trim, trimEnd.
  rewrite trimStart_toLowerCase, Hrev, trimStart_toLowerCase, Hrev. reflexivity.
Qed.

(** ** One turn of the import loop *)

Section ImportProperties.
Context {host : Host}.

(** What a turn that hands a draft to the store has done. *)
Lemma importRow_pushed (c : Columns) (now : Z) (i : nat) (row : str)
    (seen seen' : gset str) (d : BookData) :
  importRow c now i row seen = (seen', Pushed d) ->
  title d = nth (tI c) (splitRow row) [] /\
  (trim (toLowerCase (title d)) ∉ seen) /\
  seen' = {[trim (toLowerCase (title d))]} ∪ seen /\
  displayDate d = Str (dateColumnText c row) /\
  exists t,
    parseDate (Str (dateColumnText c row)) = Some t /\
    sortDate d = Some (t + Z.of_nat i * 1000) /\
    status d = Str (if negb (regexTestWords monthWords (dateColumnText c row))
                    then lit "suggested"
                    else if now <? t then lit "scheduled" else lit "read").
Proof.
  unfold importRow, dateColumnText. cbv zeta.
  destruct (length (splitRow row) <=? Nat.max (tI c) (aI c))%nat; [intros [=]|].
  destruct (falsy (Str (nth (tI c) (splitRow row) []))); [intros [=]|].
  case_bool_decide as Hin; [intros [=]|].
  set (monthYear := match dateIdx c with
                    | Some k => orEmpty (colAt (splitRow row) k)
                    | None => []
                    end).
  unfold toISOString, addMillis, TimeClip.
  destruct (parseDate (Str monthYear)) as [t|] eqn:Hp; simpl; [|intros [=]].
  destruct (Z.abs (t + Z.of_nat i * 1000) <=? maxTime); [|intros [=]].
  intros [= <- <-]. simpl.
  repeat split; [exact Hin|].
  exists t. auto.
Qed.

(** A turn that pushes nothing and throws nothing leaves the set alone. *)
Lemma importRow_skipped (c : Columns) (now : Z) (i : nat) (row : str)
    (seen seen' : gset str) :
  importRow c now i row seen = (seen', Skipped) -> seen' = seen.
Proof.
  unfold importRow. cbv zeta.
  destruct (length (splitRow row) <=? Nat.max (tI c) (aI c))%nat; [congruence|].
  destruct (falsy (Str (nth (tI c) (splitRow row) []))); [congruence|].
  case_bool_decide; [congruence|].
  destruct (toISOString _); discriminate.
Qed.

(** A row whose title is already in the set is skipped. *)
Lemma importRow_collision (c : Columns) (now : Z) (i : nat) (row : str)
    (seen : gset str) :
  trim (toLowerCase (nth (tI c) (splitRow row) [])) ∈ seen ->
  importRow c now i row seen = (seen, Skipped).
Proof.
  intros Hin. unfold importRow. cbv zeta.
  destruct (length (splitRow row) <=? Nat.max (tI c) (aI c))%nat; [reflexivity|].
  destruct (falsy (Str (nth (tI c) (splitRow row) []))); [reflexivity|].
  rewrite bool_decide_eq_true_2; [reflexivity|exact Hin].
Qed.



(** The loop keeps the drafts pairwise distinct by title, and apart from
    every title that was in the set when it started. *)
Lemma importLoop_dedup (c : Columns) (clock : nat -> Z) (rows : list str) :
  forall (i : nat) (seen : gset str) (pushed : list BookData),
    NoDup (map normTitle pushed) ->
    (forall d, In d pushed -> normTitle d ∈ seen) ->
    let r := importLoop c clock i rows seen pushed in
    NoDup (map normTitle (batch r)) /\
    (forall d, In d (batch r) -> In d pushed \/ normTitle d ∉ seen).
Proof.
  induction rows as [|row rows IH]; intros i seen pushed Hnd Hsub; simpl.
  - split; [exact Hnd|]. intros d Hd. left. exact Hd.
  - destruct (importRow c (clock i) i row seen) as [seen' out] eqn:Hrow.
    destruct out as [|d|e]; simpl.
    + apply importRow_skipped in Hrow. subst seen'. apply IH; assumption.
    + apply importRow_pushed in Hrow. destruct Hrow as (_ & Hnew & Hseen & _).
      change (normTitle d ∉ seen) in Hnew.
      change (seen' = {[normTitle d]} ∪ seen) in Hseen. subst seen'.
      destruct (IH (S i) ({[normTitle d]} ∪ seen) (pushed ++ [d])) as [H1 H2].
      * rewrite map_app. simpl. apply NoDup_app. split; [exact Hnd|]. split.
        -- intros x Hx [<-|[]]%list_elem_of_In. apply Hnew.
           apply list_elem_of_In, in_map_iff in Hx. destruct Hx as (d' & <- & Hd').
           apply Hsub. exact Hd'.
        -- apply NoDup_singleton.
      * intros d' [Hd'|[<-|[]]]%in_app_or.
        -- apply elem_of_union_r, Hsub, Hd'.
        -- apply elem_of_union_l, elem_of_singleton. reflexivity.
      * split; [exact H1|]. intros d' Hd'.
        destruct (H2 d' Hd') as [[Hp|[<-|[]]]%in_app_or|Hn].
        -- left. exact Hp.
        -- right. exact Hnew.
        -- right. intros Hc. apply Hn, elem_of_union_r, Hc.
    + split; [exact Hnd|]. intros d Hd. left. exact Hd.
Qed.
End ImportProperties.

(** ** Substrings and the month test *)

Lemma allAscii_complete (c : ascii) : In c allAscii.
Proof.
  unfold allAscii. rewrite <- (ascii_nat_embedding c).
  apply in_map, in_seq. pose proof (nat_ascii_bounded c). lia.
Qed.

Lemma canonical_eq_lower (p c : ascii) :
  isLowerLetter p = true ->
  Ascii.eqb (upperChar p) (upperChar c) = Ascii.eqb p (lowerChar c).
Proof.
  assert (H : forallb (fun p => forallb (fun c =>
              implb (isLowerLetter p)
                (Bool.eqb (Ascii.eqb (upperChar p) (upperChar c))
                          (Ascii.eqb p (lowerChar c)))) allAscii) allAscii = true)
    by (vm_compute; reflexivity).
  rewrite forallb_forall in H. specialize (H p (allAscii_complete p)).
  rewrite forallb_forall in H. specialize (H c (allAscii_complete c)).
  intros Hp. rewrite Hp in H. simpl in H. apply eqb_prop in H. exact H.
Qed.

Lemma matchAtCI_lower (w s : str) :
  forallb isLowerLetter w = true ->
  matchAtCI w s = startsWith w (toLowerCase s).
Proof.
  revert s. induction w as [|p w IH]; intros s Hw; [reflexivity|].
  simpl in Hw. apply andb_true_iff in Hw. destruct Hw as [Hp Hw].
  destruct s as [|c s]; simpl; [reflexivity|].
  rewrite (canonical_eq_lower p c Hp), (IH s Hw). reflexivity.
Qed.

Lemma startsWith_spec (p s : str) :
  startsWith p s = true <-> exists post, s = p ++ post.
Proof.
  revert s. induction p as [|a p IH]; intros s; simpl.
  - split; [intros _; exists s; reflexivity|reflexivity].
  - destruct s as [|b s].
    + split; [discriminate|intros [post H]; discriminate].
    + rewrite andb_true_iff, IH. split.
      * intros [Hab [post ->]]. apply Ascii.eqb_eq in Hab. subst b.
        exists post. reflexivity.
      * intros [post H]. injection H as -> ->. split; [apply Ascii.eqb_refl|].
        exists post. reflexivity.
Qed.

Lemma includes_spec (s t : str) : includes s t = true <-> Contains s t.
Proof.
  unfold Contains. induction s as [|c s IH]; simpl.
  - rewrite orb_false_r, startsWith_spec. split.
    + intros [post H]. exists [], post. exact H.
    + intros (pre & post & H). symmetry in H.
      apply app_eq_nil in H. destruct H as [-> H]. exists post. simpl. auto.
  - rewrite orb_true_iff, startsWith_spec, IH. split.
    + intros [[post H]|(pre & post & H)].
      * exists [], post. exact H.
      * exists (c :: pre), post. simpl. rewrite H. reflexivity.
    + intros (pre & post & H). destruct pre as [|c' pre].
      * left. exists post. exact H.
      * right. simpl in H. injection H as _ ->. exists pre, post. reflexivity.
Qed.

(** The regular expression of the import tests for a month token. *)
Lemma hasMonth_spec (text : str) :
  regexTestWords monthWords text = true <-> HasMonthToken text.
Proof.
  assert (Hgen : forall s, regexTestWords monthWords s
                   = existsb (fun w => includes (toLowerCase s) w) monthWords).
  { induction s as [|c s IH].
    - vm_compute. reflexivity.
    - change (regexTestWords monthWords (c :: s))
        with (existsb (fun w => matchAtCI w (c :: s)) monthWords
              || regexTestWords monthWords s).
      rewrite IH.
      assert (Hw : Forall (fun w => forallb isLowerLetter w = true) monthWords)
        by (vm_compute; repeat constructor).
      clear IH. induction Hw as [|w ws Hw _ IHw]; [reflexivity|].
      cbn [existsb]. rewrite (matchAtCI_lower w (c :: s) Hw).
      change (includes (toLowerCase (c :: s)) w)
        with (startsWith w (toLowerCase (c :: s)) || includes (toLowerCase s) w).
      rewrite <- IHw.
      destruct (startsWith w (toLowerCase (c :: s))),
        (existsb (fun w0 => matchAtCI w0 (c :: s)) ws),
        (includes (toLowerCase s) w),
        (existsb (fun w0 => includes (toLowerCase s) w0) ws); reflexivity. }
  rewrite Hgen, existsb_exists. unfold HasMonthToken.
  split; intros (w & Hw & H); exists w; (split; [exact Hw|]);
    apply includes_spec; exact H.
Qed.

(** ** The sort of the list view *)

Section JsSort.
Context {A : Type} (cmp : A -> A -> TimeValue).

Lemma insertBy_perm (x : A) (l : list A) : Permutation (insertBy cmp x l) (x :: l).
Proof.
  induction l as [|y l IH]; simpl; [reflexivity|].
  destruct (isPositive (cmp x y)); [|reflexivity].
  rewrite IH. apply perm_swap.
Qed.

Lemma jsSort_perm (l : list A) : Permutation (jsSort cmp l) l.
Proof.
  induction l as [|x l IH]; simpl; [reflexivity|].
  rewrite insertBy_perm. apply perm_skip, IH.
Qed.

Context (R : A -> A -> Prop) (P : A -> Prop).
Hypothesis cmp_pos : forall x y, P x -> P y -> isPositive (cmp x y) = true -> R y x.
Hypothesis cmp_nonpos : forall x y, P x -> P y -> isPositive (cmp x y) = false -> R x y.
Hypothesis R_trans : forall x y z, R x y -> R y z -> R x z.

Lemma insertBy_sorted (x : A) (l : list A) :
  P x -> Forall P l -> StronglySorted R l -> StronglySorted R (insertBy cmp x l).
Proof.
  intros Hx Hl Hs. induction Hs as [|y l Hs IH Hy]; simpl.
  - repeat constructor.
  - apply Forall_cons in Hl. destruct Hl as [Py Pl].
    destruct (isPositive (cmp x y)) eqn:E.
    + constructor; [apply IH; exact Pl|].
      apply (Permutation_Forall (symmetry (insertBy_perm x l))).
      constructor; [apply cmp_pos; assumption|exact Hy].
    + assert (Rxy : R x y) by (apply cmp_nonpos; assumption).
      constructor; [constructor; assumption|].
      constructor; [exact Rxy|].
      eapply Forall_impl; [exact Hy|]. intros z Hz. eapply R_trans; eassumption.
Qed.

Lemma jsSort_sorted (l : list A) : Forall P l -> StronglySorted R (jsSort cmp l).
Proof.
  induction 1 as [|x l Hx Hl IH]; simpl; [constructor|].
  apply insertBy_sorted; [exact Hx| |exact IH].
  apply (Permutation_Forall (symmetry (jsSort_perm l))). exact Hl.
Qed.
End JsSort.

Lemma DateLe_trans (x y z : Book) : DateLe x y -> DateLe y z -> DateLe x z.
Proof.
  unfold DateLe.
  destruct (sortDate (data x)), (sortDate (data y)), (sortDate (data z));
    try contradiction; lia.
Qed.

Lemma sort_ascending (l : list Book) :
  Forall validDate l ->
  StronglySorted DateLe
    (jsSort (fun a b => dateSub (sortDate (data a)) (sortDate (data b))) l).
Proof.
  apply jsSort_sorted.
  - intros x y [kx Hx] [ky Hy]. unfold DateLe. rewrite Hx, Hy. simpl. lia.
  - intros x y [kx Hx] [ky Hy]. unfold DateLe. rewrite Hx, Hy. simpl. lia.
  - apply DateLe_trans.
Qed.

Lemma sort_descending (l : list Book) :
  Forall validDate l ->
  StronglySorted DateGe
    (jsSort (fun a b => dateSub (sortDate (data b)) (sortDate (data a))) l).
Proof.
  apply jsSort_sorted.
  - intros x y [kx Hx] [ky Hy]. unfold DateGe, DateLe. rewrite Hx, Hy. simpl. lia.
  - intros x y [kx Hx] [ky Hy]. unfold DateGe, DateLe. rewrite Hx, Hy. simpl. lia.
  - intros x y z Hxy Hyz. exact (DateLe_trans z y x Hyz Hxy).
Qed.

(** In a sorted list a record with a strictly smaller key stands first. *)
Lemma sorted_precedes (R : Book -> Book -> Prop) (l : list Book) (x y : Book) :
  StronglySorted R l -> In x l -> In y l -> ~ R y x -> x <> y -> Precedes x y l.
Proof.
  intros Hs Hx Hy Hn Hne.
  apply in_split in Hx. destruct Hx as (l1 & l2 & ->).
  apply in_app_or in Hy. destruct Hy as [Hy|[Hy|Hy]].
  - exfalso. apply Hn.
    apply in_split in Hy. destruct Hy as (m1 & m2 & ->).
    rewrite <- app_assoc in Hs. simpl in Hs.
    apply StronglySorted_app_1_r in Hs.
    apply StronglySorted_inv in Hs. destruct Hs as [_ Hall].
    rewrite Forall_forall in Hall. apply Hall.
    apply list_elem_of_In, in_or_app. right. left. reflexivity.
  - contradiction.
  - apply in_split in Hy. destruct Hy as (m1 & m2 & ->).
    exists l1, m1, m2. reflexivity.
Qed.

(** ** The filter of the list view *)

Lemma matches_spec (activeTab filterQuery : str) (b : Book) :
  bool_decide (status (data b) = Str activeTab) &&
  (includes (toLowerCase (title (data b))) (toLowerCase filterQuery) ||
   includes (toLowerCase (authorText (author_name (data b))))
            (toLowerCase filterQuery)) = true
  <-> Matches activeTab filterQuery b.
Proof.
  unfold Matches, ContainsCI.
  rewrite andb_true_iff, orb_true_iff, bool_decide_eq_true, !includes_spec.
  reflexivity.
Qed.

Lemma getDisplayBooks_perm (activeTab filterQuery : str) (searchResults myBooks : list Book) :
  activeTab <> lit "search" ->
  Permutation (getDisplayBooks activeTab searchResults myBooks filterQuery)
    (List.filter (fun b =>
        bool_decide (status (data b) = Str activeTab) &&
        (includes (toLowerCase (title (data b))) (toLowerCase filterQuery) ||
         includes (toLowerCase (authorText (author_name (data b))))
                  (toLowerCase filterQuery))) myBooks).
Proof.
  intros Htab. unfold getDisplayBooks.
  rewrite bool_decide_eq_false_2 by exact Htab.
  case_bool_decide; apply jsSort_perm.
Qed.

Lemma filter_valid (activeTab : str) (keep : Book -> bool) (myBooks : list Book) :
  (forall b, In b myBooks -> status (data b) = Str activeTab -> validDate b) ->
  (forall b, keep b = true -> status (data b) = Str activeTab) ->
  Forall validDate (List.filter keep myBooks).
Proof.
  intros Hvalid Hkeep. apply Forall_forall. intros b Hb.
  apply list_elem_of_In, filter_In in Hb. destruct Hb as [Hin Hk].
  apply Hvalid; [exact Hin|apply Hkeep, Hk].
Qed.

(** The view of a tab other than search is sorted: upwards on the scheduled
    tab, downwards on the others. *)
Lemma view_sorted (activeTab filterQuery : str) (searchResults myBooks : list Book) :
  activeTab <> lit "search" ->
  (forall b, In b myBooks -> status (data b) = Str activeTab -> validDate b) ->
  (activeTab = lit "scheduled" ->
     StronglySorted DateLe
       (getDisplayBooks activeTab searchResults myBooks filterQuery)) /\
  (activeTab <> lit "scheduled" ->
     StronglySorted DateGe
       (getDisplayBooks activeTab searchResults myBooks filterQuery)).
Proof.
  intros Htab Hvalid.
  unfold getDisplayBooks. rewrite bool_decide_eq_false_2 by exact Htab.
  assert (Hf : Forall validDate
            (List.filter (fun b =>
               bool_decide (status (data b) = Str activeTab) &&
               (includes (toLowerCase (title (data b))) (toLowerCase filterQuery) ||
                includes (toLowerCase (authorText (author_name (data b))))
                         (toLowerCase filterQuery))) myBooks)).
  { apply (filter_valid activeTab); [exact Hvalid|].
    intros b Hb. apply andb_true_iff in Hb. destruct Hb as [Hb _].
    apply bool_decide_eq_true in Hb. exact Hb. }
  split; intros Hs.
  - rewrite bool_decide_eq_true_2 by exact Hs. apply sort_ascending, Hf.
  - rewrite bool_decide_eq_false_2 by exact Hs. apply sort_descending, Hf.
Qed.

(** C4.  On the search tab the list view returns the search results as they
    are, in their order and unfiltered.  On any other tab, when the records
    of the snapshot that belong to the tab hold an instant as sort date, the
    view is sorted by it: not decreasing on the scheduled tab, not
    increasing on the others (read and suggested among them). *)
Theorem getDisplayBooks_sorted (activeTab filterQuery : str)
    (searchResults myBooks : list Book) :
  activeTab <> lit "search" ->
  (forall b, In b myBooks -> status (data b) = Str activeTab -> validDate b) ->
  getDisplayBooks (lit "search") searchResults myBooks filterQuery = searchResults /\
  (activeTab = lit "scheduled" ->
     StronglySorted DateLe
       (getDisplayBooks activeTab searchResults myBooks filterQuery)) /\
  (activeTab <> lit "scheduled" ->
     StronglySorted DateGe
       (getDisplayBooks activeTab searchResults myBooks filterQuery)).
Proof.
  intros Htab Hvalid. split; [reflexivity|].
  apply view_sorted; assumption.
Qed.

(** C8.  On a tab other than search the list view returns exactly the
    records of the snapshot that belong to the tab and hold the filter text,
    case ignored, in the title or in the joined author text: the same
    records, each as often as the snapshot has it.  The empty filter text
    is held by every record, and a filter text that no title and no author
    text holds leaves nothing. *)
Theorem getDisplayBooks_filter (activeTab filterQuery : str)
    (searchResults myBooks : list Book) :
  activeTab <> lit "search" ->
  (exists keep : Book -> bool,
      (forall b, keep b = true <-> Matches activeTab filterQuery b) /\
      Permutation (getDisplayBooks activeTab searchResults myBooks filterQuery)
                  (List.filter keep myBooks)) /\
  (forall b, In b (getDisplayBooks activeTab searchResults myBooks filterQuery)
             <-> In b myBooks /\ Matches activeTab filterQuery b) /\
  (forall b, Matches activeTab [] b <-> status (data b) = Str activeTab) /\
  ((forall b, In b myBooks ->
      ~ ContainsCI (title (data b)) filterQuery /\
      ~ ContainsCI (authorText (author_name (data b))) filterQuery) ->
   getDisplayBooks activeTab searchResults myBooks filterQuery = []).
Proof.
  intros Htab.
  pose proof (getDisplayBooks_perm activeTab filterQuery searchResults myBooks Htab) as Hperm.
  assert (Hin : forall b,
             In b (getDisplayBooks activeTab searchResults myBooks filterQuery)
             <-> In b myBooks /\ Matches activeTab filterQuery b).
  { intros b. split.
    - intros H. apply (Permutation_in _ Hperm), filter_In in H.
      destruct H as [H1 H2]. split; [exact H1|apply matches_spec, H2].
    - intros [H1 H2]. apply (Permutation_in _ (Permutation_sym Hperm)), filter_In.
      split; [exact H1|apply matches_spec, H2]. }
  split; [|split; [exact Hin|split]].
  - eexists. split; [|exact Hperm]. intros b. apply matches_spec.
  - intros b. unfold Matches, ContainsCI, Contains. simpl. split; [tauto|].
    intros Hs. split; [exact Hs|]. left. exists [], (toLowerCase (title (data b))).
    reflexivity.
  - intros Hnone.
    destruct (getDisplayBooks activeTab searchResults myBooks filterQuery)
      as [|b l] eqn:E; [reflexivity|].
    exfalso. destruct (proj1 (Hin b) (or_introl eq_refl)) as [Hb [_ Hm]].
    destruct (Hnone b Hb) as [H1 H2]. tauto.
Qed.

(** ** The actions *)

Section ActionProperties.
Context {host : Host}.

(** The run of an edit whose three prompts were answered. *)
Lemma editBook_answered (user : option User) (book : Book)
    (nd np nc : str) (accepted : bool) :
  isAdmin user = true ->
  editBook user book (Some nd) (Some np) (Some nc) accepted =
    match
      (if negb (bool_decide (Str nd = displayDate (data book))) then
         if notEpoch (parseDate (Str nd)) then
           match parseDate (Str nd) with
           | Some t => inr (Some t)
           | None => inl RangeError
           end
         else inr (sortDate (data book))
       else inr (sortDate (data book)))
    with
    | inl e => ([], inl e)
    | inr sd =>
        (UpdateDoc (key book)
           {| newDisplayDate := nd; newProposer := np;
              newComments := nc; newSortDate := sd |} accepted
           :: editFailure accepted, inr tt)
    end.
Proof.
  intros Hadmin. unfold editBook. rewrite Hadmin. simpl.
  destruct (negb (bool_decide (Str nd = displayDate (data book)))).
  - destruct (notEpoch (parseDate (Str nd))).
    + destruct (parseDate (Str nd)); destruct accepted; reflexivity.
    + destruct accepted; reflexivity.
  - destruct accepted; reflexivity.
Qed.

(** An edit without the privilege, or with a prompt cancelled, does
    nothing at all. *)
Lemma editBook_declined (user : option User) (book : Book)
    (i1 i2 i3 : option str) (accepted : bool) :
  isAdmin user = false \/ i1 = None \/ i2 = None \/ i3 = None ->
  editBook user book i1 i2 i3 accepted = ([], inr tt).
Proof.
  unfold editBook. intros [H|[H|[H|H]]].
  - rewrite H. reflexivity.
  - subst i1. destruct (negb (isAdmin user)); reflexivity.
  - subst i2. destruct (negb (isAdmin user)), i1; reflexivity.
  - subst i3. destruct (negb (isAdmin user)), i1, i2; reflexivity.
Qed.

(** The events of an edit: none, or one request to update the book. *)
Lemma editBook_events (user : option User) (book : Book)
    (i1 i2 i3 : option str) (accepted : bool) :
  events (editBook user book i1 i2 i3 accepted) = [] \/
  exists u, events (editBook user book i1 i2 i3 accepted)
            = UpdateDoc (key book) u accepted :: editFailure accepted.
Proof.
  destruct (isAdmin user) eqn:Hadmin;
    [|left; rewrite editBook_declined by auto; reflexivity].
  destruct i1 as [nd|]; [|left; rewrite editBook_declined by auto; reflexivity].
  destruct i2 as [np|]; [|left; rewrite editBook_declined by auto; reflexivity].
  destruct i3 as [nc|]; [|left; rewrite editBook_declined by auto; reflexivity].
  rewrite (editBook_answered user book nd np nc accepted Hadmin).
  match goal with |- context [match ?x with inl _ => _ | inr _ => _ end] =>
    destruct x as [e|sd] end.
  - left. reflexivity.
  - right. eexists. reflexivity.
Qed.

Lemma runStore_editFailure (accepted : bool) (s : gmap str BookData) :
  runStore (editFailure accepted) s = s.
Proof. destruct accepted; reflexivity. Qed.

(** C7.  The edit operation writes the four fields displayDate, proposer,
    comments and sortDate and no other: whatever it does, every document
    of the store keeps its title, authors, isbn and status (and cover),
    no document appears or disappears, and a document other than the
    edited one is untouched.  Without admin privilege, or when one of the
    three prompts is cancelled, the edit emits nothing, so nothing is
    written. *)
Theorem editBook_frame (user : option User) (book : Book)
    (i1 i2 i3 : option str) (accepted : bool) (s : gmap str BookData) :
  (isAdmin user = false \/ i1 = None \/ i2 = None \/ i3 = None ->
     editBook user book i1 i2 i3 accepted = ([], inr tt)) /\
  (forall e, In e (events (editBook user book i1 i2 i3 accepted)) ->
     isWrite e = true -> exists u, e = UpdateDoc (key book) u accepted) /\
  (forall k d, s !! k = Some d ->
     exists d', runStore (events (editBook user book i1 i2 i3 accepted)) s !! k = Some d' /\
       title d' = title d /\ author_name d' = author_name d /\
       isbn d' = isbn d /\ status d' = status d /\ coverUrl d' = coverUrl d /\
       (k <> key book -> d' = d)) /\
  (forall k, s !! k = None ->
     runStore (events (editBook user book i1 i2 i3 accepted)) s !! k = None).
Proof.
  split; [apply editBook_declined|].
  destruct (editBook_events user book i1 i2 i3 accepted) as [->|[u ->]].
  - split; [intros e []|]. split; [|intros k Hk; exact Hk].
    intros k d Hk. exists d. simpl. auto 10.
  - split; [|split].
    + intros e [<-|He] Hw; [exists u; reflexivity|].
      destruct accepted; simpl in He; [destruct He|].
      destruct He as [<-|[<-|[]]]; discriminate Hw.
    + intros k d Hk. change (UpdateDoc (key book) u accepted :: editFailure accepted)
        with ([UpdateDoc (key book) u accepted] ++ editFailure accepted).
      unfold runStore. rewrite fold_left_app. fold (runStore (editFailure accepted)).
      rewrite runStore_editFailure. simpl.
      destruct accepted; [|exists d; auto 10].
      destruct (decide (key book = k)) as [<-|Hne].
      * exists (applyUpdate u d). rewrite lookup_alter_eq, Hk. simpl.
        repeat split; auto. intros Hn. contradiction.
      * exists d. rewrite lookup_alter_ne by exact Hne. auto 10.
    + intros k Hk. change (UpdateDoc (key book) u accepted :: editFailure accepted)
        with ([UpdateDoc (key book) u accepted] ++ editFailure accepted).
      unfold runStore. rewrite fold_left_app. fold (runStore (editFailure accepted)).
      rewrite runStore_editFailure. simpl.
      destruct accepted; [|exact Hk].
      destruct (decide (key book = k)) as [<-|Hne].
      * rewrite lookup_alter_eq, Hk. reflexivity.
      * rewrite lookup_alter_ne by exact Hne. exact Hk.
Qed.


(** C5.  An add by nobody, whatever the status, or with a status other
    than suggested by a user who is not an admin, is turned down with a
    message and writes nothing: the run ends after the alert (and, for
    nobody, the request to show the login form), no event is a request to
    the store, and the store is as it was. *)
Theorem add_requires_authority (user : option User) (now : Z) (book : Book)
    (status : str) (confirmed : bool) (i1 i2 i3 : option str) (accepted : bool) :
  user = None \/ (status <> lit "suggested" /\ isAdmin user = false) ->
  let run := addBookToFirebase user now book status confirmed i1 i2 i3 accepted in
  outcome run = inr tt /\
  (user = None ->
     events run = [Alert (lit "Please log in to add books!"); SetShowLogin true]) /\
  (user <> None ->
     events run = [Alert (lit "Only admins can add to the Read or Scheduled lists.")]) /\
  Forall (fun e => isWrite e = false) (events run) /\
  (forall s, runStore (events run) s = s).
Proof.
  intros H. unfold addBookToFirebase.
  destruct user as [u|].
  - destruct H as [H|[Hs Ha]]; [discriminate|].
    rewrite Ha, bool_decide_eq_false_2 by exact Hs. simpl.
    repeat split; [intros [=]|repeat constructor].
  - simpl. repeat split; [intros Hn; contradiction|repeat constructor].
Qed.
End ActionProperties.

(** ** The date helper *)

Section DateProperties.
Context {host : Host}.

(** Nothing, and the empty text, give the epoch sentinel. *)
Lemma parseDate_missing :
  parseDate Undefined = Some 0 /\ parseDate Null = Some 0 /\ parseDate (Str []) = Some 0.
Proof. repeat split. Qed.

(** A text the generic parser reads is read by it. *)
Lemma parseDate_generic (s : str) (t : Z) :
  s <> [] -> newDateOfString s = Some t -> parseDate (Str s) = Some t.
Proof.
  intros Hs Ht. unfold parseDate. destruct s; [contradiction|].
  simpl. rewrite Ht. reflexivity.
Qed.

(** The fallback: the month from the first token, the year from the last. *)
Lemma parseDate_fallback (s : str) :
  s <> [] -> newDateOfString s = None ->
  parseDate (Str s) =
    match splitDateParts (trim s) with
    | (first :: _ :: _) as parts =>
        match lookupKey (substring0 3 (toLowerCase first)) months,
              parseInt (List.last parts []) with
        | Some m, Some y => newDateYMD y m 1
        | _, _ => Some 0
        end
    | _ => Some 0
    end.
Proof.
  intros Hs Ht. unfold parseDate. destruct s; [contradiction|].
  simpl falsy. cbv iota. simpl orEmpty. rewrite Ht.
  destruct (splitDateParts (trim (a :: s))) as [|p1 [|p2 ps]]; reflexivity.
Qed.

(** A year from 100 on, up to the last full year of the calendar of
    [Date], is taken as it is: the result is the first of the month, at
    local midnight. *)
Lemma newDateYMD_first_of_month (y m : Z) :
  (forall t, Z.abs (LocalTZA t) <= msPerDay) ->
  100 <= y <= 275759 -> 0 <= m <= 11 ->
  newDateYMD y m 1 =
    Some (MakeDay y m 1 * msPerDay - LocalTZA (MakeDay y m 1 * msPerDay)).
Proof.
  intros Htz Hy Hm. unfold newDateYMD, MakeFullYear, MakeDate, TimeClip.
  replace ((0 <=? y) && (y <=? 99)) with false by lia.
  rewrite Z.add_0_r.
  set (local := MakeDay y m 1 * msPerDay).
  assert (Hlocal : Z.abs local <= maxTime - msPerDay).
  { subst local. unfold MakeDay, DayFromYear, maxTime, msPerDay.
    replace (m / 12) with 0 by (symmetry; apply Z.div_small; lia).
    replace (m mod 12) with m by (symmetry; apply Z.mod_small; lia).
    rewrite Z.add_0_r.
    assert (0 <= monthOffset (InLeapYear y) m <= 335).
    { assert (Hc : m = 0 \/ m = 1 \/ m = 2 \/ m = 3 \/ m = 4 \/ m = 5 \/ m = 6 \/
                   m = 7 \/ m = 8 \/ m = 9 \/ m = 10 \/ m = 11) by lia.
      destruct (InLeapYear y);
        repeat (destruct Hc as [->|Hc]; [simpl; lia|]); subst m; simpl; lia. }
    pose proof (Z.div_mod (y - 1969) 4 ltac:(lia)).
    pose proof (Z.mod_pos_bound (y - 1969) 4 ltac:(lia)).
    pose proof (Z.div_mod (y - 1901) 100 ltac:(lia)).
    pose proof (Z.mod_pos_bound (y - 1901) 100 ltac:(lia)).
    pose proof (Z.div_mod (y - 1601) 400 ltac:(lia)).
    pose proof (Z.mod_pos_bound (y - 1601) 400 ltac:(lia)).
    generalize dependent (monthOffset (InLeapYear y) m).
    generalize dependent ((y - 1969) / 4). generalize dependent ((y - 1969) mod 4).
    generalize dependent ((y - 1901) / 100). generalize dependent ((y - 1901) mod 100).
    generalize dependent ((y - 1601) / 400). generalize dependent ((y - 1601) mod 400).
    intros. lia. }
  specialize (Htz local). unfold maxTime, msPerDay in *.
  replace (Z.abs (local - LocalTZA local) <=? 8640000000000000) with true by lia.
  reflexivity.
Qed.

(** C3, at the failing input.  On a host whose generic parser does not
    read the text and whose zone offset stays within a day, [parseDate]
    gives for a month followed by an over-large year not the epoch
    sentinel and not an instant but an invalid date, on which
    [toISOString] throws. *)
Theorem parseDate_invalid_on_large_year :
  DateParse (lit "Jan 999999999") = None ->
  (forall t, Z.abs (LocalTZA t) <= msPerDay) ->
  parseDate (Str (lit "Jan 999999999")) = None /\
  toISOString (parseDate (Str (lit "Jan 999999999"))) = inl RangeError.
Proof.
  intros Hgen Htz.
  assert (H : parseDate (Str (lit "Jan 999999999")) = None).
  { rewrite parseDate_fallback;
      [|discriminate|unfold newDateOfString; rewrite Hgen; reflexivity].
    assert (E1 : splitDateParts (trim (lit "Jan 999999999"))
                 = [lit "Jan"; lit "999999999"]) by reflexivity.
    assert (E2 : lookupKey (substring0 3 (toLowerCase (lit "Jan"))) months = Some 0)
      by reflexivity.
    assert (E3 : parseInt (List.last [lit "Jan"; lit "999999999"] []) = Some 999999999)
      by reflexivity.
    rewrite E1, E2, E3. unfold newDateYMD, TimeClip.
    set (local := MakeDate (MakeDay (MakeFullYear 999999999) 0 1) 0).
    assert (Hl : maxTime + msPerDay < local) by (vm_compute; reflexivity).
    clearbody local.
    specialize (Htz local). unfold msPerDay, maxTime in *.
    replace (Z.abs (local - LocalTZA local) <=? 8640000000000000) with false by lia.
    reflexivity. }
  rewrite H. split; reflexivity.
Qed.
End DateProperties.

Lemma parseDate_invalid_on_large_year_witness :
  @parseDate plainHost (Str (lit "Jan 999999999")) = None /\
  toISOString (@parseDate plainHost (Str (lit "Jan 999999999"))) = inl RangeError.
Proof.
  apply (@parseDate_invalid_on_large_year plainHost).
  - reflexivity.
  - intros t. simpl. unfold msPerDay. lia.
Defined.

(** The text of the specification, on the sample host. *)
Example parseDate_september_2025 :
  @parseDate plainHost (Str (lit "September 2025")) = Some 1756684800000 /\
  @parseDate plainHost (Str (lit "garbage")) = Some 0.
Proof. split; vm_compute; reflexivity. Qed.

(** ** The import as a whole *)

Lemma addedDocs_app (a b : list Event) : addedDocs (a ++ b) = addedDocs a ++ addedDocs b.
Proof.
  induction a as [|e a IH]; simpl; [reflexivity|].
  destruct e; simpl; rewrite ?IH; reflexivity.
Qed.

Lemma addedDocs_requests (accepted : BookData -> bool) (l : list BookData) :
  addedDocs (map (fun d => AddDoc d (accepted d)) l) = l.
Proof. induction l as [|d l IH]; simpl; [reflexivity|]. rewrite IH. reflexivity. Qed.

Section SheetProperties.
Context {host : Host}.

(** The drafts of the loop come from lines further and further down, and
    each carries the offset of its line. *)
Lemma importLoop_offsets (c : Columns) (clock : nat -> Z) (rows : list str) :
  forall (i : nat) (seen : gset str) (pushed : list BookData),
  exists (news : list BookData) (lines : list nat),
    batch (importLoop c clock i rows seen pushed) = pushed ++ news /\
    Forall2 OffsetByRow lines news /\
    StronglySorted lt lines /\
    Forall (fun k => (i <= k)%nat) lines.
Proof.
  induction rows as [|row rows IH]; intros i seen pushed; simpl.
  - exists [], []. rewrite app_nil_r. repeat constructor.
  - destruct (importRow c (clock i) i row seen) as [seen' out] eqn:Hrow.
    destruct out as [|d|e]; simpl.
    + destruct (IH (S i) seen' pushed) as (news & lines & H1 & H2 & H3 & H4).
      exists news, lines. repeat split; try assumption.
      eapply Forall_impl; [exact H4|]. simpl. lia.
    + destruct (IH (S i) seen' (pushed ++ [d])) as (news & lines & H1 & H2 & H3 & H4).
      apply importRow_pushed in Hrow.
      destruct Hrow as (_ & _ & _ & Hd & t & Hp & Hs & _).
      exists (d :: news), (i :: lines). rewrite H1, <- app_assoc.
      repeat split.
      * constructor; [|exact H2]. exists t. rewrite Hd. auto.
      * constructor; [exact H3|].
        eapply Forall_impl; [exact H4|]. simpl. lia.
      * constructor; [lia|].
        eapply Forall_impl; [exact H4|]. simpl. lia.
    + exists [], []. rewrite app_nil_r. repeat constructor.
Qed.

Lemma importSheet_dedup (clock : nat -> Z) (text : str) (myBooks : list Book) :
  NoDup (map normTitle (draftsOf (importSheet clock text myBooks))) /\
  (forall d b, In d (draftsOf (importSheet clock text myBooks)) -> In b myBooks ->
               normTitle d <> normTitle (data b)).
Proof.
  unfold importSheet.
  destruct (length (splitChar "010" text) <? 2)%nat; simpl.
  - split; [constructor|]. intros d b [].
  - match goal with |- context [importLoop ?c ?k ?i ?rows ?seen []] =>
      destruct (importLoop_dedup c k rows i seen []) as [H1 H2];
        [constructor|intros d []|]
    end.
    split; [exact H1|]. intros d b Hd Hb Heq.
    destruct (H2 d Hd) as [[]|Hn]. apply Hn. rewrite Heq.
    apply elem_of_list_to_set, list_elem_of_In, in_map_iff.
    exists b. split; [reflexivity|exact Hb].
Qed.

Lemma importSheet_offsets (clock : nat -> Z) (text : str) (myBooks : list Book) :
  exists lines,
    Forall2 OffsetByRow lines (draftsOf (importSheet clock text myBooks)) /\
    StronglySorted lt lines.
Proof.
  unfold importSheet.
  destruct (length (splitChar "010" text) <? 2)%nat; simpl.
  - exists []. split; constructor.
  - match goal with |- context [importLoop ?c ?k ?i ?rows ?seen []] =>
      destruct (importLoop_offsets c k rows i seen [])
        as (news & lines & H1 & H2 & H3 & _)
    end.
    exists lines. rewrite H1. simpl. split; assumption.
Qed.

(** Each draft of the loop comes from a row of its own: the rows of the
    drafts go down the list, the turn for the row has pushed the draft, and
    the draft carries the offset of the index of that row. *)
Lemma importLoop_rows (c : Columns) (clock : nat -> Z) (rows : list str) :
  forall (i : nat) (seen : gset str) (pushed : list BookData),
  exists (news : list BookData) (lines : list nat),
    batch (importLoop c clock i rows seen pushed) = pushed ++ news /\
    StronglySorted lt lines /\
    Forall (fun k => (i <= k)%nat) lines /\
    Forall2 (fun k d =>
               (i <= k)%nat /\ OffsetByRow k d /\
               exists (row : str) (s s' : gset str),
                 rows !! (k - i)%nat = Some row /\
                 importRow c (clock k) k row s = (s', Pushed d))
      lines news.
Proof.
  induction rows as [|row rows IH]; intros i seen pushed; simpl.
  - exists [], []. rewrite app_nil_r. repeat constructor.
  - destruct (importRow c (clock i) i row seen) as [seen' out] eqn:Hrow.
    assert (Hup : forall k d,
               ((S i <= k)%nat /\ OffsetByRow k d /\
                exists (r : str) (s s' : gset str),
                  rows !! (k - S i)%nat = Some r /\
                  importRow c (clock k) k r s = (s', Pushed d)) ->
               (i <= k)%nat /\ OffsetByRow k d /\
               exists (r : str) (s s' : gset str),
                 (row :: rows) !! (k - i)%nat = Some r /\
                 importRow c (clock k) k r s = (s', Pushed d)).
    { intros k d (Hk & Ho & r & s & s' & Hr & Hi).
      split; [lia|]. split; [exact Ho|]. exists r, s, s'. split; [|exact Hi].
      replace (k - i)%nat with (S (k - S i)) by lia. exact Hr. }
    destruct out as [|d|e]; simpl.
    + destruct (IH (S i) seen' pushed) as (news & lines & H1 & H2 & H3 & H4).
      exists news, lines. split; [exact H1|]. split; [exact H2|]. split.
      * eapply Forall_impl; [exact H3|]. simpl. lia.
      * eapply Forall2_impl; [exact H4|]. exact Hup.
    + destruct (IH (S i) seen' (pushed ++ [d])) as (news & lines & H1 & H2 & H3 & H4).
      pose proof (importRow_pushed _ _ _ _ _ _ _ Hrow)
        as (_ & _ & _ & Hd & t & Hp & Hs & _).
      exists (d :: news), (i :: lines). rewrite H1, <- app_assoc.
      split; [reflexivity|]. split; [|split].
      * constructor; [exact H2|].
        eapply Forall_impl; [exact H3|]. simpl. lia.
      * constructor; [lia|].
        eapply Forall_impl; [exact H3|]. simpl. lia.
      * constructor.
        -- split; [lia|]. split; [exists t; rewrite Hd; auto|].
           exists row, seen, seen'. rewrite Nat.sub_diag. split; [reflexivity|exact Hrow].
        -- eapply Forall2_impl; [exact H4|]. exact Hup.
    + exists [], []. rewrite app_nil_r. repeat constructor.
Qed.

Lemma importSheet_rows (clock : nat -> Z) (text : str) (myBooks : list Book) :
  exists lines : list nat,
    StronglySorted lt lines /\
    Forall2 (fun k d => OffsetByRow k d /\ DraftOfRow clock text k d)
      lines (draftsOf (importSheet clock text myBooks)).
Proof.
  unfold importSheet.
  destruct (length (splitChar "010" text) <? 2)%nat; simpl.
  - exists []. split; constructor.
  - match goal with |- context [importLoop ?c ?k ?i ?rows ?seen []] =>
      destruct (importLoop_rows c k rows i seen [])
        as (news & lines & H1 & H2 & _ & H3)
    end.
    exists lines. rewrite H1. simpl. split; [exact H2|].
    eapply Forall2_impl; [exact H3|].
    intros k d (Hk & Ho & row & s & s' & Hr & Hi).
    split; [exact Ho|]. split; [exact Hk|].
    exists row, s, s'. split; [|exact Hi].
    rewrite lookup_tail in Hr.
    replace (S (k - 1)) with k in Hr by lia. exact Hr.
Qed.

(** The documents the import asks the store to add are the drafts of its
    loop, in their order; there are none when the user is no admin, does
    not confirm, or the download fails. *)
Lemma migrate_drafts (user : option User) (confirmed : bool) (fetched : Exn + str)
    (myBooks : list Book) (clock : nat -> Z) (accepted : BookData -> bool) :
  addedDocs (events (migrateFromGoogleSheet user confirmed fetched myBooks clock accepted))
  = if isAdmin user && confirmed then
      match fetched with
      | inr text => draftsOf (importSheet clock text myBooks)
      | inl _ => []
      end
    else [].
Proof.
  unfold migrateFromGoogleSheet.
  destruct (isAdmin user); [|reflexivity].
  destruct confirmed; [|reflexivity].
  destruct fetched as [e|text]; [reflexivity|].
  simpl. destruct (importSheet clock text myBooks) as [e|r]; [reflexivity|].
  simpl. destruct (thrown r); simpl.
  - rewrite !addedDocs_app, addedDocs_requests. simpl. rewrite !app_nil_r. reflexivity.
  - destruct (forallb accepted (batch r)); simpl;
      rewrite !addedDocs_app, addedDocs_requests; simpl; rewrite !app_nil_r; reflexivity.
Qed.

Lemma migrate_drafts_cases (user : option User) (confirmed : bool)
    (fetched : Exn + str) (myBooks : list Book) (clock : nat -> Z)
    (accepted : BookData -> bool) :
  addedDocs (events (migrateFromGoogleSheet user confirmed fetched myBooks clock accepted))
    = [] \/
  exists text,
    addedDocs (events (migrateFromGoogleSheet user confirmed fetched myBooks clock accepted))
      = draftsOf (importSheet clock text myBooks).
Proof.
  rewrite migrate_drafts.
  destruct (isAdmin user && confirmed); [|left; reflexivity].
  destruct fetched as [e|text]; [left; reflexivity|].
  right. exists text. reflexivity.
Qed.

(** C1.  The drafts that a run of the import hands to the store have
    pairwise distinct normalised titles, and none has the normalised title
    of a record of the snapshot the import started from.  The normalised
    title is the title trimmed and in lower case.  A row whose normalised
    title is in the set is skipped and leaves the set as it is; a row that
    gives a draft was not in the set and has put its title there at once,
    for the rows after it. *)
Theorem import_titles_unique (user : option User) (confirmed : bool)
    (fetched : Exn + str) (myBooks : list Book) (clock : nat -> Z)
    (accepted : BookData -> bool) :
  let drafts :=
    addedDocs (events (migrateFromGoogleSheet user confirmed fetched myBooks clock accepted)) in
  NoDup (map normTitle drafts) /\
  (forall d b, In d drafts -> In b myBooks -> normTitle d <> normTitle (data b)) /\
  (forall d, normTitle d = toLowerCase (trim (title d))) /\
  (forall c now i row (seen : gset str),
      trim (toLowerCase (nth (tI c) (splitRow row) [])) ∈ seen ->
      importRow c now i row seen = (seen, Skipped)) /\
  (forall c now i row (seen seen' : gset str) d,
      importRow c now i row seen = (seen', Pushed d) ->
      (normTitle d ∉ seen) /\ seen' = {[normTitle d]} ∪ seen).
Proof.
  assert (Hloop :
    let drafts :=
      addedDocs (events (migrateFromGoogleSheet user confirmed fetched myBooks clock accepted)) in
    NoDup (map normTitle drafts) /\
    (forall d b, In d drafts -> In b myBooks -> normTitle d <> normTitle (data b))).
  { destruct (migrate_drafts_cases user confirmed fetched myBooks clock accepted)
      as [->|[text ->]].
    - split; [constructor|]. intros d b [].
    - apply importSheet_dedup. }
  destruct Hloop as [H1 H2].
  split; [exact H1|]. split; [exact H2|]. split; [|split].
  - intros d. apply trim_toLowerCase.
  - intros c now i row seen. apply importRow_collision.
  - intros c now i row seen seen' d Hrow.
    apply importRow_pushed in Hrow. destruct Hrow as (_ & Hn & Hs & _).
    split; assumption.
Qed.

(** C2.  For a row that gives a draft, with the raw text of its date
    column: when the text holds no three-letter month name, in any case,
    the status is suggested; otherwise, when the date helper reads from
    the text an instant strictly after the current time, the status is
    scheduled; otherwise it is read. *)
Theorem import_status_classification (c : Columns) (now : Z) (i : nat) (row : str)
    (seen seen' : gset str) (d : BookData) :
  importRow c now i row seen = (seen', Pushed d) ->
  displayDate d = Str (dateColumnText c row) /\
  (~ HasMonthToken (dateColumnText c row) -> status d = Str (lit "suggested")) /\
  (HasMonthToken (dateColumnText c row) ->
     (exists t, parseDate (Str (dateColumnText c row)) = Some t /\ now < t) ->
     status d = Str (lit "scheduled")) /\
  (HasMonthToken (dateColumnText c row) ->
     ~ (exists t, parseDate (Str (dateColumnText c row)) = Some t /\ now < t) ->
     status d = Str (lit "read")).
Proof.
  intros Hrow. apply importRow_pushed in Hrow.
  destruct Hrow as (_ & _ & _ & Hd & t & Hp & _ & Hs).
  split; [exact Hd|]. rewrite Hs, Hp.
  destruct (regexTestWords monthWords (dateColumnText c row)) eqn:E; simpl.
  - apply hasMonth_spec in E. split; [intros Hn; contradiction|].
    split.
    + intros _ (t' & [= <-] & Hlt).
      replace (now <? t) with true by lia. reflexivity.
    + intros _ Hn. destruct (Z.ltb_spec now t); [|reflexivity].
      exfalso. apply Hn. exists t. auto.
  - assert (Hn : ~ HasMonthToken (dateColumnText c row)).
    { intros H. apply hasMonth_spec in H. congruence. }
    split; [reflexivity|]. split; intros H; contradiction.
Qed.
End SheetProperties.

Lemma StronglySorted_lookup_lt {A} (R : A -> A -> Prop) (l : list A) (p q : nat) (a b : A) :
  StronglySorted R l -> l !! p = Some a -> l !! q = Some b -> (p < q)%nat -> R a b.
Proof.
  intros Hs. revert p q. induction Hs as [|x l Hs IH Hx]; intros p q Hp Hq Hlt.
  - discriminate.
  - destruct q as [|q]; [lia|]. destruct p as [|p].
    + simpl in Hp. injection Hp as ->. rewrite Forall_forall in Hx.
      apply Hx. eapply list_elem_of_lookup_2. exact Hq.
    + apply (IH p q); [exact Hp|exact Hq|lia].
Qed.

Section OrderProperties.
Context {host : Host}.

(** C9, as the code has it.  Each draft of an import comes from a line of
    the sheet of its own, the lines of the drafts going down the sheet, and
    carries, on top of the instant its date text parses to, a thousand
    milliseconds times the index of that line.  So of two drafts whose date
    texts parse to the same instant, the one from the earlier line is the
    earlier draft and has the strictly earlier sort date.  In a snapshot
    whose records of the tab all have a valid sort date, the list view
    shows the records of the two drafts, as it shows any two records with
    different sort dates, in the order of the sheet on the scheduled tab,
    which sorts upwards, and in the opposite order on every other tab,
    which sorts downwards. *)
Theorem import_offset_order (user : option User) (confirmed : bool)
    (fetched : Exn + str) (myBooks : list Book) (clock : nat -> Z)
    (accepted : BookData -> bool) :
  let drafts :=
    addedDocs (events (migrateFromGoogleSheet user confirmed fetched myBooks clock accepted)) in
  (exists lines : list nat,
      StronglySorted lt lines /\
      Forall2 (fun k d =>
                 OffsetByRow k d /\
                 forall text, fetched = inr text -> DraftOfRow clock text k d)
        lines drafts /\
      (forall p q kp kq dp dq,
          lines !! p = Some kp -> lines !! q = Some kq ->
          drafts !! p = Some dp -> drafts !! q = Some dq ->
          ((p < q)%nat <-> (kp < kq)%nat) /\
          ((kp < kq)%nat ->
           parseDate (displayDate dp) = parseDate (displayDate dq) ->
           (exists t,
               sortDate dp = Some (t + Z.of_nat kp * 1000) /\
               sortDate dq = Some (t + Z.of_nat kq * 1000) /\
               t + Z.of_nat kp * 1000 < t + Z.of_nat kq * 1000) /\
           (forall activeTab filterQuery searchResults snapshot bp bq,
               activeTab <> lit "search" ->
               (forall b, In b snapshot -> status (data b) = Str activeTab ->
                          validDate b) ->
               data bp = dp -> data bq = dq ->
               In bp (getDisplayBooks activeTab searchResults snapshot filterQuery) ->
               In bq (getDisplayBooks activeTab searchResults snapshot filterQuery) ->
               (activeTab = lit "scheduled" ->
                  Precedes bp bq
                    (getDisplayBooks activeTab searchResults snapshot filterQuery)) /\
               (activeTab <> lit "scheduled" ->
                  Precedes bq bp
                    (getDisplayBooks activeTab searchResults snapshot filterQuery)))))) /\
  (forall activeTab filterQuery searchResults snapshot bx by' x y,
      activeTab <> lit "search" ->
      (forall b, In b snapshot -> status (data b) = Str activeTab -> validDate b) ->
      In bx (getDisplayBooks activeTab searchResults snapshot filterQuery) ->
      In by' (getDisplayBooks activeTab searchResults snapshot filterQuery) ->
      sortDate (data bx) = Some x -> sortDate (data by') = Some y -> x < y ->
      (activeTab = lit "scheduled" ->
         Precedes bx by' (getDisplayBooks activeTab searchResults snapshot filterQuery)) /\
      (activeTab <> lit "scheduled" ->
         Precedes by' bx (getDisplayBooks activeTab searchResults snapshot filterQuery))).
Proof.
  cbv zeta.
  assert (Hview : forall activeTab filterQuery searchResults snapshot bx by' x y,
             activeTab <> lit "search" ->
             (forall b, In b snapshot -> status (data b) = Str activeTab -> validDate b) ->
             In bx (getDisplayBooks activeTab searchResults snapshot filterQuery) ->
             In by' (getDisplayBooks activeTab searchResults snapshot filterQuery) ->
             sortDate (data bx) = Some x -> sortDate (data by') = Some y -> x < y ->
             (activeTab = lit "scheduled" ->
                Precedes bx by'
                  (getDisplayBooks activeTab searchResults snapshot filterQuery)) /\
             (activeTab <> lit "scheduled" ->
                Precedes by' bx
                  (getDisplayBooks activeTab searchResults snapshot filterQuery))).
  { intros tab fq sr snapshot bx by' x y Htab Hvalid Hbx Hby Hx Hy Hlt.
    destruct (view_sorted tab fq sr snapshot Htab Hvalid) as (Hasc & Hdesc).
    assert (Hne : bx <> by') by (intros ->; rewrite Hx in Hy; injection Hy; lia).
    split; intros Hs.
    - apply (sorted_precedes DateLe); auto.
      unfold DateLe. rewrite Hx, Hy. lia.
    - apply (sorted_precedes DateGe); auto.
      unfold DateGe, DateLe. rewrite Hx, Hy. lia. }
  split; [|exact Hview].
  assert (Hlines : exists lines : list nat,
             StronglySorted lt lines /\
             Forall2 (fun k d =>
                        OffsetByRow k d /\
                        forall text, fetched = inr text -> DraftOfRow clock text k d)
               lines
               (addedDocs (events (migrateFromGoogleSheet user confirmed fetched
                                     myBooks clock accepted)))).
  { rewrite migrate_drafts.
    destruct (isAdmin user && confirmed); [|exists []; split; constructor].
    destruct fetched as [e|text]; [exists []; split; constructor|].
    destruct (importSheet_rows clock text myBooks) as (lines & HS & HF).
    exists lines. split; [exact HS|].
    eapply Forall2_impl; [exact HF|].
    intros k d [Ho Hd]. split; [exact Ho|]. intros text' [= <-]. exact Hd. }
  destruct Hlines as (lines & HS & HF). exists lines.
  split; [exact HS|]. split; [exact HF|].
  intros p q kp kq dp dq Hkp Hkq Hp Hq.
  assert (Hiff : (p < q)%nat <-> (kp < kq)%nat).
  { split; intros Hlt.
    - exact (StronglySorted_lookup_lt lt lines p q kp kq HS Hkp Hkq Hlt).
    - destruct (Nat.lt_trichotomy p q) as [H|[H|H]]; [exact H| |].
      + subst q. rewrite Hkp in Hkq. injection Hkq as ->. lia.
      + pose proof (StronglySorted_lookup_lt lt lines q p kq kp HS Hkq Hkp H). lia. }
  split; [exact Hiff|]. intros Hlt Heq.
  destruct (Forall2_lookup_lr _ _ _ _ _ _ HF Hkp Hp) as [(tp & Hpp & Hsp) _].
  destruct (Forall2_lookup_lr _ _ _ _ _ _ HF Hkq Hq) as [(tq & Hpq & Hsq) _].
  rewrite Hpp, Hpq in Heq. injection Heq as ->.
  split.
  - exists tq. split; [exact Hsp|]. split; [exact Hsq|]. lia.
  - intros tab fq sr snapshot bp bq Htab Hvalid Hdp Hdq Hbp Hbq.
    apply (Hview tab fq sr snapshot bp bq
             (tq + Z.of_nat kp * 1000) (tq + Z.of_nat kq * 1000));
      try assumption.
    + rewrite Hdp. exact Hsp.
    + rewrite Hdq. exact Hsq.
    + lia.
Qed.
End OrderProperties.

(** C9, as the specification states it, fails on the read tab: the sheet
    lists Dune before Emma, both of March 2020, and the view lists Emma
    before Dune. *)
Lemma sheet_order_reversed_on_read_tab :
  addedDocs (events (@migrateFromGoogleSheet plainHost sampleAdmin true (inr marchSheet)
                       [] sampleClock (fun _ => true)))
    = [duneDraft; emmaDraft] /\
  @parseDate plainHost (displayDate duneDraft) = @parseDate plainHost (displayDate emmaDraft) /\
  getDisplayBooks (lit "read") [] [stored "k1" duneDraft; stored "k2" emmaDraft] []
    = [stored "k2" emmaDraft; stored "k1" duneDraft] /\
  ~ Precedes (stored "k1" duneDraft) (stored "k2" emmaDraft)
      (getDisplayBooks (lit "read") [] [stored "k1" duneDraft; stored "k2" emmaDraft] []).
Proof.
  split; [vm_compute; reflexivity|]. split; [vm_compute; reflexivity|].
  assert (E : getDisplayBooks (lit "read") []
                [stored "k1" duneDraft; stored "k2" emmaDraft] []
              = [stored "k2" emmaDraft; stored "k1" duneDraft])
    by (vm_compute; reflexivity).
  split; [exact E|]. rewrite E. intros (l1 & l2 & l3 & H).
  destruct l1 as [|a [|b l1]].
  - simpl in H. injection H as H _. discriminate H.
  - simpl in H. injection H as _ H. destruct l2; discriminate H.
  - simpl in H. injection H as _ _ H. destruct l1; discriminate H.
Qed.

(** ** The properties at the sample data *)

Lemma import_titles_unique_witness :
  normTitle emmaDraft <> normTitle (data (stored "k1" duneDraft)).
Proof.
  apply (proj1 (proj2 (@import_titles_unique plainHost sampleAdmin true
                         (inr sampleSheet) [stored "k1" duneDraft] sampleClock
                         (fun _ => true)))).
  - vm_compute. left. reflexivity.
  - left. reflexivity.
Defined.

Lemma import_status_classification_witness :
  status hailMaryDraft = Str (lit "scheduled").
Proof.
  refine (proj1 (proj2 (proj2
    (@import_status_classification plainHost sampleColumns (sampleClock 4) 4
       (lit "Project Hail Mary,Andy Weir,December 2099")
       ∅ ({[lit "project hail mary"]} ∪ ∅) hailMaryDraft _))) _ _).
  - vm_compute. reflexivity.
  - apply hasMonth_spec. vm_compute. reflexivity.
  - exists 4099766400000. split; vm_compute; reflexivity.
Defined.

Lemma getDisplayBooks_sorted_witness :
  StronglySorted DateGe
    (getDisplayBooks (lit "read") [] [stored "k1" duneDraft; stored "k2" emmaDraft] []).
Proof.
  refine (proj2 (proj2 (getDisplayBooks_sorted (lit "read") [] []
            [stored "k1" duneDraft; stored "k2" emmaDraft] _ _)) _).
  - vm_compute. discriminate.
  - intros b [<-|[<-|[]]] _; eexists; reflexivity.
  - vm_compute. discriminate.
Defined.

Lemma getDisplayBooks_filter_witness :
  getDisplayBooks (lit "read") [] [stored "k1" duneDraft; stored "k2" emmaDraft]
    (lit "tolstoy") = [].
Proof.
  refine (proj2 (proj2 (proj2 (getDisplayBooks_filter (lit "read") (lit "tolstoy") []
            [stored "k1" duneDraft; stored "k2" emmaDraft] _))) _).
  - vm_compute. discriminate.
  - intros b [<-|[<-|[]]]; split; intros H; apply includes_spec in H;
      vm_compute in H; discriminate H.
Defined.

Lemma add_requires_authority_witness :
  events (@addBookToFirebase plainHost sampleMember (sampleClock 0)
            (stored "k1" duneDraft) (lit "read") true
            (Some (lit "March 2020")) (Some (lit "reader")) (Some []) true)
    = [Alert (lit "Only admins can add to the Read or Scheduled lists.")].
Proof.
  refine (proj1 (proj2 (proj2 (@add_requires_authority plainHost sampleMember
            (sampleClock 0) (stored "k1" duneDraft) (lit "read") true
            (Some (lit "March 2020")) (Some (lit "reader")) (Some []) true _))) _).
  - right. split; [vm_compute; discriminate|reflexivity].
  - discriminate.
Defined.

Lemma editBook_frame_witness :
  @editBook plainHost sampleAdmin (stored "k1" duneDraft)
    (Some (lit "April 2020")) None (Some []) true = ([], inr tt).
Proof.
  refine (proj1 (@editBook_frame plainHost sampleAdmin (stored "k1" duneDraft)
            (Some (lit "April 2020")) None (Some []) true ∅) _).
  right. right. left. reflexivity.
Defined.


Lemma import_offset_order_witness :
  exists t,
    sortDate duneDraft = Some (t + 1 * 1000) /\
    sortDate emmaDraft = Some (t + 2 * 1000).
Proof.
  destruct (proj1 (@import_offset_order plainHost sampleAdmin true
                     (inr marchSheet) [] sampleClock (fun _ => true)))
    as (lines & HS & HF & Hpair).
  assert (E : addedDocs (events (@migrateFromGoogleSheet plainHost sampleAdmin true
                                   (inr marchSheet) [] sampleClock (fun _ => true)))
              = [duneDraft; emmaDraft]) by (vm_compute; reflexivity).
  rewrite E in HF, Hpair.
  destruct lines as [|k1 [|k2 [|k3 lines]]];
    try (exfalso; apply Forall2_length in HF; simpl in HF; lia).
  assert (Hk : forall k d, @OffsetByRow plainHost k d ->
                 @parseDate plainHost (displayDate d) = Some 1583020800000 ->
                 forall n : nat, sortDate d = Some (1583020800000 + Z.of_nat n * 1000) ->
                 k = n).
  { intros k d (t & Hp & Hs) Hp' n Hs'.
    rewrite Hp' in Hp. injection Hp as <-.
    rewrite Hs' in Hs. injection Hs as Hs. lia. }
  assert (k1 = 1%nat) as ->.
  { apply (Hk k1 duneDraft); [|vm_compute; reflexivity|reflexivity].
    exact (proj1 (Forall2_lookup_lr _ _ _ 0%nat _ _ HF eq_refl eq_refl)). }
  assert (k2 = 2%nat) as ->.
  { apply (Hk k2 emmaDraft); [|vm_compute; reflexivity|reflexivity].
    exact (proj1 (Forall2_lookup_lr _ _ _ 1%nat _ _ HF eq_refl eq_refl)). }
  destruct (Hpair 0%nat 1%nat 1%nat 2%nat duneDraft emmaDraft
              eq_refl eq_refl eq_refl eq_refl) as [_ Hsort].
  destruct Hsort as ((t & Hx & Hy & _) & _).
  - lia.
  - vm_compute. reflexivity.
  - exists t. split; [exact Hx|exact Hy].
Defined.

(** What the invalid date of C3 does to the callers of [parseDate]: the edit
    ends with the exception of [toISOString] and writes nothing, and the
    import stops at the row, after the request for the row before it. *)
Example editBook_throws_on_large_year :
  @editBook plainHost sampleAdmin (stored "k1" duneDraft)
    (Some (lit "Jan 999999999")) (Some (lit "Sharon")) (Some []) true
  = ([], inl RangeError).
Proof. vm_compute. reflexivity. Qed.

Example migrate_aborts_on_large_year :
  events (@migrateFromGoogleSheet plainHost sampleAdmin true (inr farYearSheet)
            [] sampleClock (fun _ => true))
  = [SetIsLoading true;
     AddDoc duneDraft true;
     ConsoleError (lit "Migration failed");
     Alert (lit "Migration failed: Invalid time value");
     SetIsLoading false].
Proof. vm_compute. reflexivity. Qed.

(** An admin adds a book to the read list: one request, with that status. *)
Example admin_adds_read_book :
  map status
    (addedDocs (events (@addBookToFirebase plainHost sampleAdmin (sampleClock 0)
                          (stored "k1" duneDraft) (lit "read") true
                          (Some (lit "March 2020")) (Some (lit "Sharon")) (Some []) true)))
  = [Str (lit "read")].
Proof. vm_compute. reflexivity. Qed.

(** * Further properties *)

(** ** The store under the requests of a run *)

Lemma runStore_app (a b : list Event) (s : gmap str BookData) :
  runStore (a ++ b) s = runStore b (runStore a s).
Proof. unfold runStore. apply fold_left_app. Qed.

Lemma fresh_key_free (s : gmap str BookData) : s !! fresh (dom s : gset str) = None.
Proof. apply not_elem_of_dom, is_fresh. Qed.

(** Requests that only add leave every document in place, and the store
    grows by the documents it took. *)
Lemma runStore_only_adds (tr : list Event) :
  forall s : gmap str BookData,
    Forall (fun e => isOverwrite e = false) tr ->
    (forall k d, s !! k = Some d -> runStore tr s !! k = Some d) /\
    size (runStore tr s) = (size s + length (acceptedDocs tr))%nat.
Proof.
  induction tr as [|e tr IH]; intros s Hall.
  - split; [auto|]. simpl. lia.
  - apply Forall_cons in Hall. destruct Hall as [He Hall].
    change (runStore (e :: tr) s) with (runStore tr (storeStep s e)).
    destruct (IH (storeStep s e) Hall) as [Hkeep Hsize].
    destruct e as [| | | | | |d [|]|k u [|]|k [|]]; try discriminate He;
      simpl storeStep in *; try (split; [exact Hkeep|exact Hsize]).
    split.
    + intros k d0 Hk. apply Hkeep. rewrite lookup_insert_ne; [exact Hk|].
      intros <-. rewrite fresh_key_free in Hk. discriminate.
    + rewrite Hsize, map_size_insert_None by apply fresh_key_free.
      simpl. lia.
Qed.

Lemma acceptedDocs_app (a b : list Event) :
  acceptedDocs (a ++ b) = acceptedDocs a ++ acceptedDocs b.
Proof.
  induction a as [|e a IH]; simpl; [reflexivity|].
  destruct e as [| | | | | |d [|]| |]; simpl; rewrite ?IH; reflexivity.
Qed.

Lemma acceptedDocs_requests (accepted : BookData -> bool) (l : list BookData) :
  acceptedDocs (map (fun d => AddDoc d (accepted d)) l) = List.filter accepted l.
Proof.
  induction l as [|d l IH]; simpl; [reflexivity|].
  destruct (accepted d); simpl; rewrite IH; reflexivity.
Qed.

Lemma requests_only_add (accepted : BookData -> bool) (l : list BookData) :
  Forall (fun e => isOverwrite e = false) (map (fun d => AddDoc d (accepted d)) l).
Proof. induction l; simpl; constructor; [reflexivity|assumption]. Qed.

(** X1.  A delete touches no document but the one named.  Done by an admin
    who confirms, and taken by the store, it removes that document; refused
    by the store, it changes nothing and the refusal leaves the action as
    an exception, with no message (the action has no handler).  Without
    admin privilege or without the confirmation nothing happens at all. *)
Theorem removeBook_store (user : option User) (bookKey : str)
    (confirmed accepted : bool) (s : gmap str BookData) :
  let run := removeBook user bookKey confirmed accepted in
  (forall k, k <> bookKey -> runStore (events run) s !! k = s !! k) /\
  (isAdmin user = false \/ confirmed = false -> run = ([], inr tt)) /\
  (isAdmin user = true -> confirmed = true -> accepted = true ->
     run = ([DeleteDoc bookKey true], inr tt) /\
     runStore (events run) s = delete bookKey s /\
     runStore (events run) s !! bookKey = None) /\
  (isAdmin user = true -> confirmed = true -> accepted = false ->
     run = ([DeleteDoc bookKey false], inl (Rejected (lit "deleteDoc"))) /\
     runStore (events run) s = s).
Proof.
  unfold removeBook.
  destruct (isAdmin user), confirmed, accepted; simpl;
    repeat split; try discriminate; try (intros [H|H]; discriminate H); auto;
    try (intros k Hk; apply lookup_delete_ne; congruence);
    try apply lookup_delete_eq.
Qed.
Lemma removeBook_store_witness :
  runStore (events (removeBook sampleAdmin (lit "k1") true true))
    (<[lit "k1" := duneDraft]> (<[lit "k2" := emmaDraft]> ∅)) !! lit "k2"
  = Some emmaDraft.
Proof.
  rewrite (proj1 (removeBook_store sampleAdmin (lit "k1") true true
                    (<[lit "k1" := duneDraft]> (<[lit "k2" := emmaDraft]> ∅)))
                 (lit "k2")).
  - vm_compute. reflexivity.
  - discriminate.
Defined.

(** ** Adding a book *)

Section AddProperties.
Context {host : Host}.

(** The run of an add that passed the two checks and was confirmed. *)
Lemma addBook_confirmed (u : User) (now : Z) (book : Book) (st : str)
    (i1 i2 i3 : option str) (accepted : bool) :
  st = lit "suggested" \/ isAdmin (Some u) = true ->
  addBookToFirebase (Some u) now book st true i1 i2 i3 accepted =
    match
      match i1 with
      | Some l =>
          if notEpoch (parseDate (Str l)) then
            match parseDate (Str l) with
            | Some t => inr (l, t)
            | None => inl RangeError
            end
          else inr (l, now)
      | None =>
          inr (if bool_decide (st = lit "read") then toLocaleDateString now else [],
               now)
      end
    with
    | inl e => ([], inl e)
    | inr entered =>
        (AddDoc {| title := title (data book);
                   author_name := author_name (data book);
                   coverUrl := orNull (coverUrl (data book));
                   isbn := orNull (isbn (data book));
                   status := Str st;
                   sortDate := Some (snd entered);
                   displayDate := Str (fst entered);
                   proposer := Str (default (hd [] (splitChar "@" (email u))) i2);
                   comments := Str (default [] i3);
                   attemptedV2 := negb (falsy (coverUrl (data book))) |} accepted
           :: addReport st accepted, inr tt)
    end.
Proof.
  intros Hauth. unfold addBookToFirebase.
  assert (negb (bool_decide (st = lit "suggested")) && negb (isAdmin (Some u)) = false)
    as ->.
  { destruct Hauth as [-> | ->].
    - reflexivity.
    - apply andb_false_r. }
  destruct i1 as [l|].
  - destruct (notEpoch (parseDate (Str l))).
    + destruct (parseDate (Str l)); destruct accepted; reflexivity.
    + destruct accepted; reflexivity.
  - destruct accepted; reflexivity.
Qed.

(** X2.  An add that is allowed (any signed-in user for a suggestion, an
    admin for the other lists) does nothing when the confirmation is
    declined.  Confirmed, and with a date label that does not parse to an
    invalid date, it sends exactly one request: a document with the status
    asked for, the title and authors of the book, the proposer entered or
    else the part of the user's e-mail before the at sign, and the comments
    entered or else none.  When the store takes it the collection has one
    document more, under a key that was free, and every document it had is
    unchanged; when the store refuses, the collection is unchanged and the
    user is told. *)
Theorem add_one_document (u : User) (now : Z) (book : Book) (st : str)
    (i1 i2 i3 : option str) (accepted : bool) (s : gmap str BookData) :
  st = lit "suggested" \/ isAdmin (Some u) = true ->
  (forall l, i1 = Some l -> parseDate (Str l) <> None) ->
  addBookToFirebase (Some u) now book st false i1 i2 i3 accepted = ([], inr tt) /\
  let run := addBookToFirebase (Some u) now book st true i1 i2 i3 accepted in
  exists d,
    events run = AddDoc d accepted :: addReport st accepted /\
    outcome run = inr tt /\
    status d = Str st /\
    title d = title (data book) /\
    author_name d = author_name (data book) /\
    proposer d = Str (default (hd [] (splitChar "@" (email u))) i2) /\
    comments d = Str (default [] i3) /\
    (accepted = true ->
       s !! fresh (dom s : gset str) = None /\
       runStore (events run) s = <[fresh (dom s : gset str) := d]> s /\
       (forall k d0, s !! k = Some d0 -> runStore (events run) s !! k = Some d0) /\
       size (runStore (events run) s) = S (size s)) /\
    (accepted = false ->
       runStore (events run) s = s /\
       In (Alert (lit "Error adding book.")) (events run)).
Proof.
  intros Hauth Hvalid. split.
  - unfold addBookToFirebase.
    assert (negb (bool_decide (st = lit "suggested")) && negb (isAdmin (Some u)) = false)
      as ->.
    { destruct Hauth as [-> | ->]; [reflexivity|apply andb_false_r]. }
    reflexivity.
  - cbv zeta. rewrite (addBook_confirmed u now book st i1 i2 i3 accepted Hauth).
    match goal with |- context [match ?x with inl _ => _ | inr _ => _ end] =>
      destruct x as [e|entered] eqn:E end.
    + exfalso. destruct i1 as [l|]; [|discriminate E].
      destruct (notEpoch (parseDate (Str l))); [|discriminate E].
      destruct (parseDate (Str l)) eqn:Hp; [discriminate E|].
      exact (Hvalid l eq_refl Hp).
    + eexists. do 7 (split; [reflexivity|]). split.
      * intros ->. simpl.
        split; [apply fresh_key_free|]. split; [reflexivity|]. split.
        -- intros k d0 Hk. rewrite lookup_insert_ne; [exact Hk|].
           intros <-. rewrite fresh_key_free in Hk. discriminate.
        -- apply map_size_insert_None, fresh_key_free.
      * intros ->. simpl. split; [reflexivity|]. auto.
Qed.

(** X3.  The dates of the document an allowed, confirmed add sends.  With
    the date prompt cancelled the sort date is the current time and the
    label is the locale's date of today for the read list, empty for the
    others.  With a label entered, the label is stored as entered; the sort
    date is the instant the label parses to, except that a label parsing to
    the epoch sentinel leaves the current time as sort date, and a label
    parsing to an invalid date ends the add with an exception before any
    request. *)
Theorem add_dates (u : User) (now : Z) (book : Book) (st : str)
    (i1 i2 i3 : option str) (accepted : bool) :
  st = lit "suggested" \/ isAdmin (Some u) = true ->
  let run := addBookToFirebase (Some u) now book st true i1 i2 i3 accepted in
  let dates := map (fun d => (displayDate d, sortDate d)) (addedDocs (events run)) in
  (i1 = None ->
     dates = [(Str (if bool_decide (st = lit "read")
                    then toLocaleDateString now else []), Some now)]) /\
  (forall l, i1 = Some l -> parseDate (Str l) = Some 0 ->
     dates = [(Str l, Some now)]) /\
  (forall l t, i1 = Some l -> parseDate (Str l) = Some t -> t <> 0 ->
     dates = [(Str l, Some t)]) /\
  (forall l, i1 = Some l -> parseDate (Str l) = None ->
     run = ([], inl RangeError)).
Proof.
  intros Hauth. cbv zeta.
  rewrite (addBook_confirmed u now book st i1 i2 i3 accepted Hauth).
  repeat split.
  - intros ->. simpl. destruct accepted; reflexivity.
  - intros l -> Hp. rewrite Hp. simpl. destruct accepted; reflexivity.
  - intros l t -> Hp Ht. rewrite Hp. simpl.
    destruct (Z.eqb_spec t 0); [contradiction|]. simpl.
    destruct accepted; reflexivity.
  - intros l -> Hp. rewrite Hp. reflexivity.
Qed.
End AddProperties.

Lemma add_one_document_witness :
  exists d,
    events (@addBookToFirebase plainHost sampleMember (sampleClock 0)
              (stored "k9" duneDraft) (lit "suggested") true
              None None None true)
      = AddDoc d true :: addReport (lit "suggested") true /\
    proposer d = Str (lit "reader").
Proof.
  destruct (proj2 (@add_one_document plainHost {| email := lit "reader@example.org" |}
                     (sampleClock 0) (stored "k9" duneDraft) (lit "suggested")
                     None None None true ∅
                     (or_introl eq_refl)
                     (fun l H => ltac:(discriminate H))))
    as (d & He & _ & _ & _ & _ & Hp & _).
  exists d. split; [exact He|exact Hp].
Defined.

Lemma add_dates_witness :
  map (fun d => (displayDate d, sortDate d))
    (addedDocs (events (@addBookToFirebase plainHost sampleAdmin (sampleClock 0)
                          (stored "k9" duneDraft) (lit "read") true
                          (Some (lit "September 2025")) None None true)))
  = [(Str (lit "September 2025"), Some 1756684800000)].
Proof.
  refine (proj1 (proj2 (proj2 (@add_dates plainHost {| email := lit "Sharon@TutorShiba.com" |}
            (sampleClock 0) (stored "k9" duneDraft) (lit "read")
            (Some (lit "September 2025")) None None true _)))
          (lit "September 2025") 1756684800000 eq_refl _ _).
  - right. vm_compute. reflexivity.
  - vm_compute. reflexivity.
  - discriminate.
Defined.

(** ** The import as an action *)

Lemma splitCharAux_length (sep : ascii) (s cur : str) :
  length (splitCharAux sep s cur) = S (countChar sep s).
Proof.
  revert cur. induction s as [|c s IH]; intros cur; simpl; [reflexivity|].
  destruct (Ascii.eqb c sep); simpl; rewrite IH; reflexivity.
Qed.

(** The documents of a trace of the import: its requests, then a report
    that asks nothing of the store. *)
Lemma import_trace_docs (accepted : BookData -> bool) (l : list BookData)
    (report : list Event) :
  Forall (fun e => isWrite e = false) report ->
  Forall (fun e => isOverwrite e = false)
    (events (SetIsLoading true ::
             (map (fun d => AddDoc d (accepted d)) l ++ report) ++ [SetIsLoading false],
             @inr Exn unit tt)) /\
  acceptedDocs
    (events (SetIsLoading true ::
             (map (fun d => AddDoc d (accepted d)) l ++ report) ++ [SetIsLoading false],
             @inr Exn unit tt))
  = List.filter accepted
      (addedDocs
         (events (SetIsLoading true ::
                  (map (fun d => AddDoc d (accepted d)) l ++ report)
                    ++ [SetIsLoading false],
                  @inr Exn unit tt))).
Proof.
  intros Hrep. unfold events. simpl.
  assert (Hr : Forall (fun e => isOverwrite e = false) report /\
               acceptedDocs report = [] /\ addedDocs report = []).
  { induction Hrep as [|e rep He _ (IH1 & IH2 & IH3)]; [repeat constructor|].
    destruct e; try discriminate He; simpl; repeat split; auto. }
  destruct Hr as (Hr1 & Hr2 & Hr3). split.
  - constructor; [reflexivity|].
    apply Forall_app. split; [|repeat constructor].
    apply Forall_app. split; [apply requests_only_add|exact Hr1].
  - rewrite !acceptedDocs_app, !addedDocs_app, acceptedDocs_requests,
      addedDocs_requests, Hr2, Hr3. simpl. rewrite !app_nil_r. reflexivity.
Qed.

Section MigrateRun.
Context {host : Host}.

(** The run of an import by an admin who confirmed it. *)
Lemma migrate_run (user : option User) (fetched : Exn + str) (myBooks : list Book)
    (clock : nat -> Z) (accepted : BookData -> bool) :
  isAdmin user = true ->
  migrateFromGoogleSheet user true fetched myBooks clock accepted =
    (SetIsLoading true ::
     match fetched with
     | inl e => failReport e
     | inr text =>
         match importSheet clock text myBooks with
         | inl e => failReport e
         | inr r =>
             map (fun d => AddDoc d (accepted d)) (batch r) ++
             match thrown r with
             | Some e => failReport e
             | None =>
                 if forallb accepted (batch r)
                 then [Alert (successMessage (length (batch r)))]
                 else failReport (Rejected (lit "addDoc"))
             end
         end
     end ++ [SetIsLoading false], inr tt).
Proof.
  intros Hadmin. unfold migrateFromGoogleSheet. rewrite Hadmin.
  destruct fetched as [e|text]; [reflexivity|].
  simpl. destruct (importSheet clock text myBooks) as [e|r]; [reflexivity|].
  simpl. destruct (thrown r); simpl.
  - rewrite <- !app_assoc. reflexivity.
  - destruct (forallb accepted (batch r)); simpl; rewrite <- !app_assoc; reflexivity.
Qed.


(** X5.  An import changes the store by additions only: whatever the sheet
    and whatever the answers of the store, every document the collection had
    is unchanged afterwards, and the collection has grown by exactly the
    drafts the store took. *)
Theorem migrate_store (user : option User) (confirmed : bool) (fetched : Exn + str)
    (myBooks : list Book) (clock : nat -> Z) (accepted : BookData -> bool)
    (s : gmap str BookData) :
  let run := migrateFromGoogleSheet user confirmed fetched myBooks clock accepted in
  (forall k d, s !! k = Some d -> runStore (events run) s !! k = Some d) /\
  size (runStore (events run) s)
    = (size s + length (List.filter accepted (addedDocs (events run))))%nat.
Proof.
  cbv zeta.
  assert (Hev : Forall (fun e => isOverwrite e = false)
                  (events (migrateFromGoogleSheet user confirmed fetched myBooks
                             clock accepted)) /\
                acceptedDocs (events (migrateFromGoogleSheet user confirmed fetched
                                        myBooks clock accepted))
                = List.filter accepted
                    (addedDocs (events (migrateFromGoogleSheet user confirmed fetched
                                          myBooks clock accepted)))).
  { destruct (isAdmin user) eqn:Hadmin; [destruct confirmed|].
    - rewrite (migrate_run user fetched myBooks clock accepted Hadmin).
      destruct fetched as [e|text]; [split; [repeat constructor|reflexivity]|].
      destruct (importSheet clock text myBooks) as [e|r];
        [split; [repeat constructor|reflexivity]|].
      apply (import_trace_docs accepted (batch r)).
      destruct (thrown r); [repeat constructor|].
      destruct (forallb accepted (batch r)); repeat constructor.
    - unfold migrateFromGoogleSheet. rewrite Hadmin.
      split; [constructor|reflexivity].
    - unfold migrateFromGoogleSheet. rewrite Hadmin.
      split; [constructor|reflexivity]. }
  destruct Hev as [H1 H2].
  destruct (runStore_only_adds _ s H1) as [Hkeep Hsize].
  split; [exact Hkeep|]. rewrite Hsize, H2. reflexivity.
Qed.

(** X6.  When the download fails, or the text has no line break, so that
    there is no row under the header, the import sends no request and
    reports the failure; the second case reads No data found.  A text with
    a line break always reaches the loop over the rows. *)
Theorem migrate_without_data (user : option User) (myBooks : list Book)
    (clock : nat -> Z) (accepted : BookData -> bool) (e : Exn) (text : str) :
  isAdmin user = true ->
  migrateFromGoogleSheet user true (inl e) myBooks clock accepted
    = ([SetIsLoading true] ++ failReport e ++ [SetIsLoading false], inr tt) /\
  (countChar newline text = 0%nat ->
     migrateFromGoogleSheet user true (inr text) myBooks clock accepted
       = ([SetIsLoading true] ++ failReport (JsError (lit "No data found"))
            ++ [SetIsLoading false], inr tt)) /\
  (countChar newline text <> 0%nat ->
     exists r, importSheet clock text myBooks = inr r).
Proof.
  intros Hadmin. split; [apply migrate_run, Hadmin|]. split.
  - intros Hn. rewrite (migrate_run user (inr text) myBooks clock accepted Hadmin).
    unfold importSheet, splitChar. rewrite splitCharAux_length.
    change "010"%char with newline. rewrite Hn. reflexivity.
  - intros Hn. unfold importSheet, splitChar. rewrite splitCharAux_length.
    change "010"%char with newline.
    destruct (countChar newline text); [contradiction|]. eexists. reflexivity.
Qed.
End MigrateRun.


Lemma migrate_store_witness :
  runStore (events (@migrateFromGoogleSheet plainHost sampleAdmin true (inr marchSheet)
                      [] sampleClock (fun _ => true)))
    (<[lit "k7" := hailMaryDraft]> ∅) !! lit "k7" = Some hailMaryDraft.
Proof.
  apply (proj1 (@migrate_store plainHost sampleAdmin true (inr marchSheet) []
                  sampleClock (fun _ => true) (<[lit "k7" := hailMaryDraft]> ∅))).
  vm_compute. reflexivity.
Defined.

Lemma migrate_without_data_witness :
  @migrateFromGoogleSheet plainHost sampleAdmin true (inr (lit "Title,Author")) []
    sampleClock (fun _ => true)
  = ([SetIsLoading true] ++ failReport (JsError (lit "No data found"))
       ++ [SetIsLoading false], inr tt).
Proof.
  apply (proj1 (proj2 (@migrate_without_data plainHost sampleAdmin [] sampleClock
                         (fun _ => true) RangeError (lit "Title,Author") eq_refl))).
  reflexivity.
Defined.

(** ** Trimming *)

Lemma trimStart_snoc (l : str) (c : ascii) :
  trimStart (l ++ [c]) =
    if forallb isWhite l then (if isWhite c then [] else [c])
    else trimStart l ++ [c].
Proof.
  induction l as [|x l IH]; simpl; [reflexivity|].
  destruct (isWhite x); simpl; [exact IH|reflexivity].
Qed.

Lemma trimStart_white (l : str) : forallb isWhite l = true -> trimStart l = [].
Proof.
  induction l as [|x l IH]; simpl; [reflexivity|].
  destruct (isWhite x); simpl; [exact IH|discriminate].
Qed.

Lemma forallb_rev {A} (p : A -> bool) (l : list A) : forallb p (rev l) = forallb p l.
Proof.
  induction l as [|x l IH]; simpl; [reflexivity|].
  rewrite forallb_app, IH. simpl. rewrite andb_true_r. apply andb_comm.
Qed.

(** [trimEnd] by recursion from the front. *)
Lemma trimEnd_cons (c : ascii) (r : str) :
  trimEnd (c :: r) = if forallb isWhite (c :: r) then [] else c :: trimEnd r.
Proof.
  unfold trimEnd. simpl rev. rewrite trimStart_snoc, forallb_rev.
  simpl forallb. destruct (forallb isWhite r) eqn:Hr.
  - rewrite andb_true_r. destruct (isWhite c); [reflexivity|].
    rewrite trimStart_white by (rewrite forallb_rev; exact Hr). reflexivity.
  - rewrite andb_false_r, rev_app_distr. reflexivity.
Qed.

Lemma trimStart_idem (s : str) : trimStart (trimStart s) = trimStart s.
Proof.
  induction s as [|c s IH]; simpl; [reflexivity|].
  destruct (isWhite c) eqn:Hc; [exact IH|]. simpl. rewrite Hc. reflexivity.
Qed.

Lemma trimStart_trimEnd (a : str) : trimStart (trimEnd a) = trimEnd (trimStart a).
Proof.
  induction a as [|c r IH]; [reflexivity|].
  rewrite trimEnd_cons. simpl forallb. simpl trimStart at 2.
  destruct (isWhite c) eqn:Hc; simpl andb.
  - destruct (forallb isWhite r) eqn:Hr.
    + rewrite (trimStart_white r Hr). reflexivity.
    + simpl. rewrite Hc. exact IH.
  - simpl. rewrite Hc. rewrite trimEnd_cons. simpl. rewrite Hc. reflexivity.
Qed.

(** Trimming what is trimmed changes nothing. *)
Lemma trim_idem (s : str) : trim (trim s) = trim s.
Proof.
  unfold trim. rewrite trimStart_trimEnd, trimStart_idem.
  unfold trimEnd at 1 2. rewrite rev_involutive, trimStart_idem. reflexivity.
Qed.

(** What is trimmed is a part of the text. *)
Lemma trimStart_suffix (s : str) : exists pre, s = pre ++ trimStart s.
Proof.
  induction s as [|c s [pre IH]]; [exists []; reflexivity|].
  simpl. destruct (isWhite c).
  - exists (c :: pre). simpl. rewrite <- IH. reflexivity.
  - exists []. reflexivity.
Qed.

Lemma trim_contained (s : str) : Contains s (trim s).
Proof.
  unfold Contains, trim, trimEnd.
  destruct (trimStart_suffix s) as [pre Hpre].
  destruct (trimStart_suffix (rev (trimStart s))) as [post Hpost].
  exists pre, (rev post). rewrite <- rev_app_distr, <- Hpost, rev_involutive.
  exact Hpre.
Qed.

(** ** More on the loop of the import *)

Lemma lookupKey_months (k : str) (m : Z) :
  lookupKey k months = Some m -> In k monthWords.
Proof.
  unfold months, lookupKey.
  repeat (case_bool_decide as Hk;
          [intros _; subst k; vm_compute; tauto|clear Hk]).
  discriminate.
Qed.

(** The first token of the date split starts the text. *)
Lemma splitRunsAux_first (s cur p : str) (ps : list str) :
  splitRunsAux s cur false = p :: ps -> exists rest, rev cur ++ s = p ++ rest.
Proof.
  revert cur. induction s as [|c s IH]; intros cur; simpl.
  - intros [= <- _]. exists []. reflexivity.
  - destruct (isDateSep c).
    + intros [= <- _]. exists (c :: s). reflexivity.
    + intros H. destruct (IH _ H) as [rest Hr]. exists rest.
      rewrite <- Hr. simpl. rewrite <- app_assoc. reflexivity.
Qed.

Lemma Contains_trans (a b c : str) : Contains a b -> Contains b c -> Contains a c.
Proof.
  intros (p1 & q1 & ->) (p2 & q2 & ->). exists (p1 ++ p2), (q2 ++ q1).
  rewrite <- !app_assoc. reflexivity.
Qed.

Lemma Contains_lower (a b : str) :
  Contains a b -> Contains (toLowerCase a) (toLowerCase b).
Proof.
  intros (p & q & ->). exists (toLowerCase p), (toLowerCase q).
  unfold toLowerCase. rewrite !map_app. reflexivity.
Qed.

Section LoopProperties.
Context {host : Host}.

(** A text without a month name that the generic parser does not read
    parses to the epoch sentinel: the fallback needs a month name at the
    start of the text. *)
Lemma parseDate_without_month (text : str) :
  ~ HasMonthToken text ->
  text = [] \/ newDateOfString text = None ->
  parseDate (Str text) = Some 0.
Proof.
  intros Hno [->|Hgen]; [reflexivity|].
  destruct text as [|c0 text0] eqn:Et; [reflexivity|]. rewrite <- Et in *.
  rewrite parseDate_fallback; [|rewrite Et; discriminate|exact Hgen].
  destruct (splitDateParts (trim text)) as [|p1 [|p2 ps]] eqn:Ep; try reflexivity.
  destruct (lookupKey (substring0 3 (toLowerCase p1)) months) as [m|] eqn:El;
    [|reflexivity].
  exfalso. apply Hno. exists (substring0 3 (toLowerCase p1)).
  split; [eapply lookupKey_months; exact El|].
  apply splitRunsAux_first in Ep. destruct Ep as [rest Hrest]. simpl in Hrest.
  eapply Contains_trans; [apply Contains_lower, trim_contained|].
  rewrite Hrest. unfold toLowerCase. rewrite map_app.
  exists [], (skipn 3 (map lowerChar p1) ++ map lowerChar rest).
  unfold substring0, toLowerCase.
  rewrite app_nil_l, app_assoc, firstn_skipn. reflexivity.
Qed.

(** A turn of the loop, read by the key of its row. *)
Lemma importRow_rowKey (c : Columns) (now : Z) (i : nat) (row : str)
    (seen : gset str) :
  match rowKey c row with
  | None => importRow c now i row seen = (seen, Skipped)
  | Some k =>
      if bool_decide (k ∈ seen) then importRow c now i row seen = (seen, Skipped)
      else fst (importRow c now i row seen) = {[k]} ∪ seen /\
           snd (importRow c now i row seen) <> Skipped /\
           (forall d, snd (importRow c now i row seen) = Pushed d -> normTitle d = k)
  end.
Proof.
  unfold rowKey, importRow. cbv zeta.
  destruct (length (splitRow row) <=? Nat.max (tI c) (aI c))%nat; [reflexivity|].
  destruct (falsy (Str (nth (tI c) (splitRow row) []))); [reflexivity|].
  case_bool_decide; [reflexivity|].
  destruct (toISOString _); simpl; repeat split; try discriminate.
  intros d [= <-]. reflexivity.
Qed.

Lemma importLoop_batch_extends (c : Columns) (clock : nat -> Z) (rows : list str) :
  forall i (seen : gset str) pushed,
    exists news, batch (importLoop c clock i rows seen pushed) = pushed ++ news.
Proof.
  intros i seen pushed.
  destruct (importLoop_offsets c clock rows i seen pushed) as (news & _ & H & _).
  exists news. exact H.
Qed.

(** After a loop that ran to its end every row with a key has that key in
    the set it started from or on one of the drafts. *)
Lemma importLoop_covers (c : Columns) (clock : nat -> Z) (rows : list str) :
  forall i (seen : gset str) pushed,
    thrown (importLoop c clock i rows seen pushed) = None ->
    forall row k, In row rows -> rowKey c row = Some k ->
      k ∈ seen \/
      exists d, In d (batch (importLoop c clock i rows seen pushed)) /\ normTitle d = k.
Proof.
  induction rows as [|row0 rows IH]; intros i seen pushed Hthrown row k Hin Hk;
    [destruct Hin|].
  simpl in Hthrown |- *.
  pose proof (importRow_rowKey c (clock i) i row0 seen) as Hrow.
  destruct (importRow c (clock i) i row0 seen) as [seen' out] eqn:E.
  destruct out as [|d|e]; simpl in *; [| |discriminate Hthrown].
  - assert (Hs : seen' = seen).
    { destruct (rowKey c row0); [case_bool_decide|]; try congruence.
      destruct Hrow as (_ & Hne & _). contradiction. }
    subst seen'. destruct Hin as [->|Hin].
    + rewrite Hk in Hrow. case_bool_decide; [left; assumption|].
      destruct Hrow as (_ & Hne & _). contradiction.
    + apply (IH (S i) seen pushed Hthrown row k Hin Hk).
  - assert (Hd : rowKey c row0 = Some (normTitle d) /\ seen' = {[normTitle d]} ∪ seen).
    { destruct (rowKey c row0) as [k0|]; [case_bool_decide|]; try discriminate Hrow.
      destruct Hrow as (Hs & _ & Hkey). rewrite (Hkey d eq_refl). auto. }
    destruct Hd as [Hkey ->].
    destruct (importLoop_batch_extends c clock rows (S i) ({[normTitle d]} ∪ seen)
                (pushed ++ [d])) as [news Hnews].
    assert (Hdin : In d (batch (importLoop c clock (S i) rows
                                  ({[normTitle d]} ∪ seen) (pushed ++ [d])))).
    { rewrite Hnews. apply in_or_app. left. apply in_or_app. right. left. reflexivity. }
    destruct Hin as [->|Hin].
    + right. exists d. split; [exact Hdin|congruence].
    + destruct (IH (S i) _ (pushed ++ [d]) Hthrown row k Hin Hk) as [Hs|Hb].
      * apply elem_of_union in Hs. destruct Hs as [Hs|Hs]; [|left; exact Hs].
        apply elem_of_singleton in Hs. subst k. right. exists d. auto.
      * right. exact Hb.
Qed.

(** A loop over rows whose keys are all in the set gives no draft. *)
Lemma importLoop_saturated (c : Columns) (clock : nat -> Z) (rows : list str) :
  forall i (seen : gset str) pushed,
    (forall row k, In row rows -> rowKey c row = Some k -> k ∈ seen) ->
    importLoop c clock i rows seen pushed
      = {| finalTitles := seen; batch := pushed; thrown := None |}.
Proof.
  induction rows as [|row0 rows IH]; intros i seen pushed Hall; [reflexivity|].
  simpl. pose proof (importRow_rowKey c (clock i) i row0 seen) as Hrow.
  assert (E : importRow c (clock i) i row0 seen = (seen, Skipped)).
  { destruct (rowKey c row0) as [k|] eqn:Hk; [|exact Hrow].
    rewrite bool_decide_eq_true_2 in Hrow; [exact Hrow|].
    apply (Hall row0 k); [left; reflexivity|exact Hk]. }
  rewrite E. apply IH. intros row k Hin. apply Hall. right. exact Hin.
Qed.

(** X7.  The import is idempotent.  When an import ran its loop to the end,
    a later import of the same text, started from a snapshot that holds the
    titles of the earlier snapshot and of the drafts of the first import,
    sends no request and reports that there is nothing new, whatever the
    clock and the store do. *)
Theorem import_idempotent (user : option User) (text : str)
    (myBooks myBooks' : list Book) (clock clock' : nat -> Z)
    (accepted' : BookData -> bool) (r : LoopResult) :
  isAdmin user = true ->
  importSheet clock text myBooks = inr r ->
  thrown r = None ->
  (forall b, In b myBooks ->
     exists b', In b' myBooks' /\ normTitle (data b') = normTitle (data b)) ->
  (forall d, In d (batch r) ->
     exists b', In b' myBooks' /\ normTitle (data b') = normTitle d) ->
  migrateFromGoogleSheet user true (inr text) myBooks' clock' accepted'
    = ([SetIsLoading true; Alert (lit "No new books found to import.");
        SetIsLoading false], inr tt).
Proof.
  intros Hadmin Himp Hthrown Hold Hnew.
  rewrite (migrate_run user (inr text) myBooks' clock' accepted' Hadmin).
  unfold importSheet in *.
  destruct (length (splitChar "010" text) <? 2)%nat; [discriminate Himp|].
  injection Himp as <-.
  rewrite importLoop_saturated; [reflexivity|].
  intros row k Hin Hk.
  assert (Hmem : forall b', In b' myBooks' ->
            normTitle (data b') ∈
              (list_to_set (map (fun b => trim (toLowerCase (title (data b)))) myBooks')
                 : gset str)).
  { intros b' Hb'. apply elem_of_list_to_set, list_elem_of_In, in_map_iff.
    exists b'. split; [reflexivity|exact Hb']. }
  destruct (importLoop_covers _ _ _ _ _ _ Hthrown row k Hin Hk) as [Hs|(d & Hd & <-)].
  - apply elem_of_list_to_set, list_elem_of_In, in_map_iff in Hs.
    destruct Hs as (b & Hkb & Hb). destruct (Hold b Hb) as (b' & Hb' & Heq).
    rewrite <- Hkb. change (trim (toLowerCase (title (data b)))) with (normTitle (data b)).
    rewrite <- Heq. apply Hmem, Hb'.
  - destruct (Hnew d Hd) as (b' & Hb' & <-). apply Hmem, Hb'.
Qed.
End LoopProperties.

Lemma import_idempotent_witness :
  @migrateFromGoogleSheet plainHost sampleAdmin true (inr marchSheet)
    [stored "k1" duneDraft; stored "k2" emmaDraft] sampleClock (fun _ => false)
  = ([SetIsLoading true; Alert (lit "No new books found to import.");
      SetIsLoading false], inr tt).
Proof.
  refine (@import_idempotent plainHost sampleAdmin marchSheet []
            [stored "k1" duneDraft; stored "k2" emmaDraft] sampleClock sampleClock
            (fun _ => false)
            {| finalTitles := {[lit "emma"]} ∪ ({[lit "dune"]} ∪ ∅);
               batch := [duneDraft; emmaDraft]; thrown := None |} eq_refl _ eq_refl _ _).
  - vm_compute. reflexivity.
  - intros b [].
  - intros d [<-|[<-|[]]].
    + exists (stored "k1" duneDraft). split; [left; reflexivity|reflexivity].
    + exists (stored "k2" emmaDraft). split; [right; left; reflexivity|reflexivity].
Defined.

Section DraftProperties.
Context {host : Host}.

Lemma importLoop_Forall (P : BookData -> Prop) (c : Columns) (clock : nat -> Z)
    (rows : list str) :
  (forall now i row (seen seen' : gset str) d,
      importRow c now i row seen = (seen', Pushed d) -> P d) ->
  forall i (seen : gset str) pushed,
    Forall P pushed -> Forall P (batch (importLoop c clock i rows seen pushed)).
Proof.
  intros Hrow. induction rows as [|row rows IH]; intros i seen pushed Hp; simpl.
  - exact Hp.
  - destruct (importRow c (clock i) i row seen) as [seen' out] eqn:E.
    destruct out as [|d|e]; simpl.
    + apply IH, Hp.
    + apply IH, Forall_app. split; [exact Hp|].
      constructor; [|constructor]. eapply Hrow, E.
    + exact Hp.
Qed.

Lemma migrate_drafts_Forall (P : BookData -> Prop) (user : option User)
    (confirmed : bool) (fetched : Exn + str) (myBooks : list Book)
    (clock : nat -> Z) (accepted : BookData -> bool) :
  (forall c now i row (seen seen' : gset str) d,
      importRow c now i row seen = (seen', Pushed d) -> P d) ->
  Forall P (addedDocs (events (migrateFromGoogleSheet user confirmed fetched myBooks
                                 clock accepted))).
Proof.
  intros Hrow.
  destruct (migrate_drafts_cases user confirmed fetched myBooks clock accepted)
    as [->|[text ->]]; [constructor|].
  unfold importSheet.
  destruct (length (splitChar "010" text) <? 2)%nat; simpl; [constructor|].
  apply importLoop_Forall; [apply Hrow|constructor].
Qed.

Lemma importRow_shape (c : Columns) (now : Z) (i : nat) (row : str)
    (seen seen' : gset str) (d : BookData) :
  importRow c now i row seen = (seen', Pushed d) -> WellFormedDraft d.
Proof.
  unfold importRow, WellFormedDraft. cbv zeta.
  destruct (length (splitRow row) <=? Nat.max (tI c) (aI c))%nat; [intros [=]|].
  destruct (falsy (Str (nth (tI c) (splitRow row) []))) eqn:Hf; [intros [=]|].
  case_bool_decide; [intros [=]|].
  unfold toISOString, addMillis, TimeClip.
  destruct (parseDate _) as [t|]; simpl; [|intros [=]].
  destruct (Z.abs (t + Z.of_nat i * 1000) <=? maxTime) eqn:Hr; [|intros [=]].
  intros [= _ <-]. simpl.
  split; [intros Hn; rewrite Hn in Hf; discriminate Hf|].
  split.
  { assert (Hn : forall l, nth (tI c) (map cleanField l) [] = cleanField (nth (tI c) l []))
      by (intros l; apply (map_nth cleanField l [] (tI c))).
    unfold splitRow. rewrite Hn. unfold cleanField. apply trim_idem. }
  split; [eexists; reflexivity|]. split; [reflexivity|]. split; [reflexivity|].
  split.
  { repeat match goal with |- context [if ?b then _ else _] => destruct b end; auto. }
  split; [eexists; split; [reflexivity|lia]|].
  split; eexists; reflexivity.
Qed.

(** X8.  Every draft an import sends is well formed: its title is not
    empty and has no white space around it, it has exactly one author
    entry, no cover and the cover search not yet tried, one of the three
    statuses, a sort date that is an instant within the range of dates, and
    texts (possibly empty) as date label and proposer. *)
Theorem import_drafts_well_formed (user : option User) (confirmed : bool)
    (fetched : Exn + str) (myBooks : list Book) (clock : nat -> Z)
    (accepted : BookData -> bool) :
  Forall WellFormedDraft
    (addedDocs (events (migrateFromGoogleSheet user confirmed fetched myBooks
                          clock accepted))).
Proof. apply migrate_drafts_Forall. intros c. apply importRow_shape. Qed.

(** X9.  A row whose date text holds no month name, and is empty or not
    read by the generic parser, gives a suggested book whose sort date is
    the epoch moved by the row's offset alone: such books sort by their
    place in the sheet. *)
Theorem import_undated_row (c : Columns) (now : Z) (i : nat) (row : str)
    (seen seen' : gset str) (d : BookData) :
  importRow c now i row seen = (seen', Pushed d) ->
  ~ HasMonthToken (dateColumnText c row) ->
  dateColumnText c row = [] \/ newDateOfString (dateColumnText c row) = None ->
  status d = Str (lit "suggested") /\
  sortDate d = Some (Z.of_nat i * 1000).
Proof.
  intros Hrow Hno Hgen. apply importRow_pushed in Hrow.
  destruct Hrow as (_ & _ & _ & _ & t & Hp & Hs & Hst).
  rewrite (parseDate_without_month _ Hno Hgen) in Hp. injection Hp as <-.
  split; [|rewrite Hs; f_equal; lia].
  rewrite Hst. destruct (regexTestWords monthWords (dateColumnText c row)) eqn:E;
    [|reflexivity].
  exfalso. apply Hno, hasMonth_spec, E.
Qed.
End DraftProperties.

Lemma import_undated_row_witness :
  status (draft "Untitled idea" "?" "suggested" "" 5000) = Str (lit "suggested") /\
  sortDate (draft "Untitled idea" "?" "suggested" "" 5000) = Some (Z.of_nat 5 * 1000).
Proof.
  apply (@import_undated_row plainHost sampleColumns (sampleClock 5) 5
           (lit "Untitled idea,?,") ∅ ({[lit "untitled idea"]} ∪ ∅)).
  - vm_compute. reflexivity.
  - intros H. apply hasMonth_spec in H. vm_compute in H. discriminate H.
  - left. vm_compute. reflexivity.
Defined.

(** ** More on the list view *)

(** The sort is stable: among elements the comparator does not put apart,
    the order is that of the input. *)
Lemma insertBy_filter {A} (cmp : A -> A -> TimeValue) (p : A -> bool) (x : A) (l : list A) :
  (forall a b, p a = true -> p b = true -> isPositive (cmp a b) = false) ->
  List.filter p (insertBy cmp x l) = List.filter p (x :: l).
Proof.
  intros Htie. induction l as [|y l IH]; [reflexivity|].
  simpl insertBy. destruct (isPositive (cmp x y)) eqn:E; [|reflexivity].
  simpl. simpl in IH. destruct (p y) eqn:Hy.
  - rewrite IH. destruct (p x) eqn:Hx; [|reflexivity].
    rewrite (Htie x y Hx Hy) in E. discriminate E.
  - rewrite IH. reflexivity.
Qed.

Lemma jsSort_filter {A} (cmp : A -> A -> TimeValue) (p : A -> bool) (l : list A) :
  (forall a b, p a = true -> p b = true -> isPositive (cmp a b) = false) ->
  List.filter p (jsSort cmp l) = List.filter p l.
Proof.
  intros Htie. induction l as [|x l IH]; [reflexivity|].
  simpl jsSort. rewrite (insertBy_filter cmp p x _ Htie). simpl. rewrite IH. reflexivity.
Qed.

Lemma includes_empty (s : str) : includes s [] = true.
Proof. destruct s; reflexivity. Qed.

(** X10.  The list view keeps ties in the order of the snapshot: on a tab
    other than search whose records all have a valid sort date, the records
    of the view with one and the same sort date stand in the order in which
    the snapshot has the matching records with that sort date. *)
Theorem getDisplayBooks_stable (activeTab filterQuery : str)
    (searchResults myBooks : list Book) (t : Z) :
  activeTab <> lit "search" ->
  (forall b, In b myBooks -> status (data b) = Str activeTab -> validDate b) ->
  exists keep : Book -> bool,
    (forall b, keep b = true <-> Matches activeTab filterQuery b) /\
    List.filter (fun b => bool_decide (sortDate (data b) = Some t))
      (getDisplayBooks activeTab searchResults myBooks filterQuery)
    = List.filter (fun b => bool_decide (sortDate (data b) = Some t))
        (List.filter keep myBooks).
Proof.
  intros Htab _. eexists. split; [intros b; apply matches_spec|].
  unfold getDisplayBooks. rewrite bool_decide_eq_false_2 by exact Htab.
  case_bool_decide; apply jsSort_filter; intros a b Ha Hb;
    apply bool_decide_eq_true in Ha; apply bool_decide_eq_true in Hb;
    rewrite Ha, Hb; simpl; rewrite Z.sub_diag; reflexivity.
Qed.

(** X11.  The number a tab shows beside its name is the number of cards the
    view of that tab shows while the filter text is empty, and with a
    filter text the view shows at most that many. *)
Theorem tabCount_view (activeTab filterQuery : str) (searchResults myBooks : list Book) :
  activeTab <> lit "search" ->
  length (getDisplayBooks activeTab searchResults myBooks []) = tabCount activeTab myBooks /\
  (length (getDisplayBooks activeTab searchResults myBooks filterQuery)
     <= tabCount activeTab myBooks)%nat.
Proof.
  intros Htab. unfold tabCount. split.
  - rewrite (Permutation_length (getDisplayBooks_perm activeTab [] searchResults myBooks Htab)).
    f_equal. apply filter_ext. intros b. simpl toLowerCase.
    rewrite includes_empty. simpl. apply andb_true_r.
  - rewrite (Permutation_length
               (getDisplayBooks_perm activeTab filterQuery searchResults myBooks Htab)).
    induction myBooks as [|b l IH]; simpl; [lia|].
    destruct (bool_decide (status (data b) = Str activeTab)); simpl; [|exact IH].
    match goal with |- context [if ?x then _ else _] => destruct x end; simpl; lia.
Qed.

(** X12.  Typing on in the filter only narrows the view: when the new
    filter text holds the old one (case ignored), every record the view
    shows for the new text it showed for the old one. *)
Theorem getDisplayBooks_narrows (activeTab q q' : str) (searchResults myBooks : list Book) :
  activeTab <> lit "search" ->
  ContainsCI q' q ->
  forall b, In b (getDisplayBooks activeTab searchResults myBooks q') ->
            In b (getDisplayBooks activeTab searchResults myBooks q).
Proof.
  intros Htab Hq b Hb.
  apply (Permutation_in _ (getDisplayBooks_perm activeTab q' searchResults myBooks Htab)),
    filter_In in Hb.
  destruct Hb as [Hin Hm]. apply matches_spec in Hm. destruct Hm as [Hs Hc].
  apply (Permutation_in _
           (Permutation_sym (getDisplayBooks_perm activeTab q searchResults myBooks Htab))),
    filter_In.
  split; [exact Hin|]. apply matches_spec. split; [exact Hs|].
  unfold ContainsCI in *.
  destruct Hc as [Hc|Hc]; [left|right]; eapply Contains_trans; eassumption.
Qed.

Lemma getDisplayBooks_stable_witness :
  exists keep : Book -> bool,
    (forall b, keep b = true <-> Matches (lit "read") [] b) /\
    List.filter (fun b => bool_decide (sortDate (data b) = Some 1583020801000))
      (getDisplayBooks (lit "read") []
         [stored "k1" duneDraft; stored "k2" emmaDraft; stored "k3" duneDraft] [])
    = List.filter (fun b => bool_decide (sortDate (data b) = Some 1583020801000))
        (List.filter keep
           [stored "k1" duneDraft; stored "k2" emmaDraft; stored "k3" duneDraft]).
Proof.
  apply (getDisplayBooks_stable (lit "read") [] []
           [stored "k1" duneDraft; stored "k2" emmaDraft; stored "k3" duneDraft]
           1583020801000).
  - vm_compute. discriminate.
  - intros b [<- | [<- | [<- | []]]] _; eexists; reflexivity.
Defined.

Lemma tabCount_view_witness :
  length (getDisplayBooks (lit "read") []
            [stored "k1" duneDraft; stored "k2" hailMaryDraft] [])
  = tabCount (lit "read") [stored "k1" duneDraft; stored "k2" hailMaryDraft].
Proof.
  apply (tabCount_view (lit "read") [] []
           [stored "k1" duneDraft; stored "k2" hailMaryDraft]).
  vm_compute. discriminate.
Defined.

Lemma getDisplayBooks_narrows_witness :
  In (stored "k1" duneDraft)
     (getDisplayBooks (lit "read") [] [stored "k1" duneDraft; stored "k2" emmaDraft]
        (lit "du")).
Proof.
  apply (getDisplayBooks_narrows (lit "read") (lit "du") (lit "DUN") []
           [stored "k1" duneDraft; stored "k2" emmaDraft]).
  - vm_compute. discriminate.
  - apply includes_spec. vm_compute. reflexivity.
  - vm_compute. left. reflexivity.
Defined.

(** ** Splitting and joining *)

Lemma join_cons (sep p : str) (rest : list str) :
  rest <> [] -> join sep (p :: rest) = p ++ sep ++ join sep rest.
Proof. destruct rest; [contradiction|reflexivity]. Qed.

Lemma splitCharAux_nonempty (sep : ascii) (s cur : str) : splitCharAux sep s cur <> [].
Proof.
  revert cur. induction s as [|c s IH]; intros cur; simpl; [discriminate|].
  destruct (Ascii.eqb c sep); [discriminate|apply IH].
Qed.

Lemma splitCharAux_join (sep : ascii) (s cur : str) :
  join [sep] (splitCharAux sep s cur) = rev cur ++ s.
Proof.
  revert cur. induction s as [|c s IH]; intros cur; simpl splitCharAux.
  - simpl. rewrite app_nil_r. reflexivity.
  - destruct (Ascii.eqb_spec c sep) as [->|Hc].
    + rewrite join_cons by apply splitCharAux_nonempty. rewrite IH. reflexivity.
    + rewrite IH. simpl. rewrite <- app_assoc. reflexivity.
Qed.

Lemma countChar_app (c : ascii) (a b : str) :
  countChar c (a ++ b) = (countChar c a + countChar c b)%nat.
Proof.
  induction a as [|x a IH]; simpl; [reflexivity|].
  destruct (Ascii.eqb x c); simpl; rewrite IH; reflexivity.
Qed.

Lemma splitCharAux_parts (sep : ascii) (s cur : str) :
  countChar sep cur = 0%nat ->
  Forall (fun p => countChar sep p = 0%nat) (splitCharAux sep s cur).
Proof.
  assert (Hrev : forall l, countChar sep l = 0%nat -> countChar sep (rev l) = 0%nat).
  { induction l as [|x l IHl]; simpl; [reflexivity|].
    destruct (Ascii.eqb x sep) eqn:E; [discriminate|]. intros H.
    rewrite countChar_app, (IHl H). simpl. rewrite E. reflexivity. }
  revert cur. induction s as [|c s IH]; intros cur Hcur; simpl.
  - constructor; [apply Hrev, Hcur|constructor].
  - destruct (Ascii.eqb c sep) eqn:E.
    + constructor; [apply Hrev, Hcur|apply IH; reflexivity].
    + apply IH. simpl. rewrite E. exact Hcur.
Qed.

(** X13.  Splitting a text at a character loses nothing: the parts joined
    with the character are the text again, no part holds the character, and
    there is one part more than the text has occurrences of it.  So the rows
    of the import are the lines of the sheet, and the proposer an add
    suggests is the user's e-mail up to its first at sign. *)
Theorem splitChar_rejoin (sep : ascii) (s : str) :
  join [sep] (splitChar sep s) = s /\
  Forall (fun p => countChar sep p = 0%nat) (splitChar sep s) /\
  length (splitChar sep s) = S (countChar sep s) /\
  exists rest, s = hd [] (splitChar sep s) ++ rest /\
               (rest = [] \/ exists r, rest = sep :: r).
Proof.
  unfold splitChar. split; [apply (splitCharAux_join sep s [])|].
  split; [apply splitCharAux_parts; reflexivity|].
  split; [apply splitCharAux_length|].
  pose proof (splitCharAux_join sep s []) as Hj.
  pose proof (splitCharAux_nonempty sep s []) as Hn.
  destruct (splitCharAux sep s []) as [|p [|q ps]]; [contradiction| |].
  - exists []. simpl in *. rewrite app_nil_r. auto.
  - rewrite join_cons in Hj by discriminate. simpl in Hj |- *.
    eexists. split; [symmetry; exact Hj|]. right. eexists. reflexivity.
Qed.

Lemma csvSplitAux_join (s cur : str) :
  join [comma] (csvSplitAux s cur) = rev cur ++ s.
Proof.
  revert cur. induction s as [|c s IH]; intros cur; simpl csvSplitAux.
  - simpl. rewrite app_nil_r. reflexivity.
  - destruct (Ascii.eqb c comma && lookahead s) eqn:E.
    + apply andb_true_iff in E. destruct E as [E _]. apply Ascii.eqb_eq in E. subst c.
      rewrite join_cons by apply csvSplitAux_nonempty. rewrite IH. reflexivity.
    + rewrite IH. simpl. rewrite <- app_assoc. reflexivity.
Qed.

Lemma csvSplitAux_plain (s cur : str) :
  Forall notQuote s -> csvSplitAux s cur = splitCharAux comma s cur.
Proof.
  intros Hs. revert cur. induction Hs as [|c s Hc Hs IH]; intros cur; simpl;
    [reflexivity|].
  unfold lookahead. rewrite (countQuotes_notQuote s Hs). simpl.
  rewrite andb_true_r. destruct (Ascii.eqb c comma); rewrite IH; reflexivity.
Qed.

(** X14.  The field splitting of the import loses nothing either: the raw
    fields of a line joined with commas are the line.  On a line without
    quotes it is the plain split at every comma, and each field is then the
    trimmed text between two commas. *)
Theorem csvSplit_rejoin (line : str) :
  join [comma] (csvSplit line) = line /\
  (Forall notQuote line ->
     csvSplit line = splitChar comma line /\
     splitRow line = map trim (splitChar comma line)).
Proof.
  split; [apply (csvSplitAux_join line [])|].
  intros Hq. unfold splitRow, csvSplit, splitChar.
  rewrite (csvSplitAux_plain line [] Hq). split; [reflexivity|].
  pose proof (splitCharAux_parts comma line [] eq_refl) as Hparts.
  assert (Hall : Forall notQuote line -> Forall (Forall notQuote) (splitCharAux comma line [])).
  { clear. intros Hq.
    assert (Hg : forall s cur, Forall notQuote s -> Forall notQuote cur ->
                   Forall (Forall notQuote) (splitCharAux comma s cur)).
    { induction s as [|c s IH]; intros cur Hs Hcur; simpl.
      - constructor; [apply Forall_rev, Hcur|constructor].
      - apply Forall_cons in Hs. destruct Hs as [Hc Hs].
        destruct (Ascii.eqb c comma).
        + constructor; [apply Forall_rev, Hcur|apply IH; [exact Hs|constructor]].
        + apply IH; [exact Hs|constructor; assumption]. }
    apply Hg; [exact Hq|constructor]. }
  specialize (Hall Hq). clear Hparts.
  induction Hall as [|p ps Hp _ IH]; simpl; [reflexivity|].
  unfold cleanField at 1. rewrite (stripQuotes_notQuote p Hp), IH. reflexivity.
Qed.

Lemma csvSplit_rejoin_witness :
  splitRow (lit "Dune , Frank Herbert,March 2020")
  = map trim (splitChar comma (lit "Dune , Frank Herbert,March 2020")).
Proof.
  apply (csvSplit_rejoin (lit "Dune , Frank Herbert,March 2020")).
  vm_compute. repeat constructor; discriminate.
Defined.

(** ** Columns of the sheet *)

Lemma findIndex_Some {A} (p : A -> bool) (l : list A) (i : nat) :
  findIndex p l = Some i ->
  exists x, FirstAt (fun y => p y = true) l i x.
Proof.
  revert i. induction l as [|a l IH]; intros i; simpl; [discriminate|].
  destruct (p a) eqn:Ha.
  - intros [= <-]. exists a. split; [reflexivity|]. split; [exact Ha|]. intros j y Hj. lia.
  - destruct (findIndex p l) as [k|]; [|discriminate]. intros [= <-].
    destruct (IH k eq_refl) as (x & Hx & Hpx & Hfirst).
    exists x. split; [exact Hx|]. split; [exact Hpx|].
    intros [|j] y Hj Hy.
    + injection Hy as <-. rewrite Ha. discriminate.
    + apply (Hfirst j y); [lia|exact Hy].
Qed.

Lemma findIndex_None {A} (p : A -> bool) (l : list A) :
  findIndex p l = None -> Forall (fun y => p y = false) l.
Proof.
  induction l as [|a l IH]; simpl; [constructor|].
  destruct (p a) eqn:Ha; [discriminate|].
  destruct (findIndex p l); [discriminate|]. intros _. constructor; [exact Ha|auto].
Qed.

(** X15.  The columns of the sheet: the title column is the first header
    that holds title or book, or column 0 when no header does; the author
    column is the first header that holds author, or column 1 when none
    does; and the sheet has no date column exactly when no header holds
    month, read or year. *)
Theorem identifyColumns_first_match (headers : list str) :
  let c := identifyColumns headers in
  ((exists h, FirstAt isTitleHeader headers (tI c) h) \/
   (Forall (fun h => ~ isTitleHeader h) headers /\ tI c = 0%nat)) /\
  ((exists h, FirstAt isAuthorHeader headers (aI c) h) \/
   (Forall (fun h => ~ isAuthorHeader h) headers /\ aI c = 1%nat)) /\
  (dateIdx c = None <->
   Forall (fun h => ~ (Contains h (lit "month") \/ Contains h (lit "read") \/
                       Contains h (lit "year"))) headers).
Proof.
  cbv zeta. unfold identifyColumns. cbn [tI aI dateIdx].
  assert (Ht : forall h, includes h (lit "title") || includes h (lit "book") = true
                         <-> isTitleHeader h).
  { intros h. unfold isTitleHeader. rewrite orb_true_iff, !includes_spec. reflexivity. }
  assert (Hd : forall h, includes h (lit "month") || includes h (lit "read")
                           || includes h (lit "year") = true
                         <-> (Contains h (lit "month") \/ Contains h (lit "read") \/
                              Contains h (lit "year"))).
  { intros h. rewrite !orb_true_iff, !includes_spec. tauto. }
  split; [|split].
  - destruct (findIndex _ headers) as [i|] eqn:E; simpl.
    + left. apply findIndex_Some in E. destruct E as (x & Hx & Hp & Hf).
      exists x. split; [exact Hx|]. split; [apply Ht, Hp|].
      intros j y Hj Hy Hc. apply Ht in Hc. apply (Hf j y Hj Hy Hc).
    + right. split; [|reflexivity]. apply findIndex_None in E.
      eapply Forall_impl; [exact E|]. intros h Hh Hc. apply Ht in Hc. cbv beta in Hh. congruence.
  - destruct (findIndex (fun h => includes h (lit "author")) headers) as [i|] eqn:E; simpl.
    + left. apply findIndex_Some in E. destruct E as (x & Hx & Hp & Hf).
      exists x. split; [exact Hx|]. split; [apply includes_spec, Hp|].
      intros j y Hj Hy Hc. apply includes_spec in Hc. apply (Hf j y Hj Hy Hc).
    + right. split; [|reflexivity]. apply findIndex_None in E.
      eapply Forall_impl; [exact E|]. intros h Hh Hc. apply includes_spec in Hc.
      cbv beta in Hh. congruence.
  - split.
    + intros E. apply findIndex_None in E.
      eapply Forall_impl; [exact E|]. intros h Hh Hc. apply Hd in Hc. cbv beta in Hh. congruence.
    + intros Hall. destruct (findIndex _ headers) as [i|] eqn:E; [|reflexivity].
      exfalso. apply findIndex_Some in E. destruct E as (x & Hx & Hp & _).
      rewrite Forall_forall in Hall. apply (Hall x).
      * eapply list_elem_of_lookup_2, Hx.
      * apply Hd, Hp.
Qed.

(** ** The ISBN of a search result *)

Lemma find_FirstAt {A} (p : A -> bool) (l : list A) (i : nat) (x : A) :
  FirstAt (fun y => p y = true) l i x -> List.find p l = Some x.
Proof.
  revert i. induction l as [|a l IH]; intros i (Hx & Hp & Hf); [discriminate Hx|].
  simpl. destruct i as [|i].
  - injection Hx as ->. rewrite Hp. reflexivity.
  - destruct (p a) eqn:Ha.
    + exfalso. apply (Hf 0%nat a); [lia|reflexivity|exact Ha].
    + apply (IH i). split; [exact Hx|]. split; [exact Hp|].
      intros j y Hj Hy. apply (Hf (S j) y); [lia|exact Hy].
Qed.

Lemma find_none_Forall {A} (p : A -> bool) (P : A -> Prop) (l : list A) :
  (forall y, p y = true -> P y) -> Forall (fun y => ~ P y) l -> List.find p l = None.
Proof.
  intros Hp. induction 1 as [|a l Ha _ IH]; simpl; [reflexivity|].
  destruct (p a) eqn:E; [|exact IH]. exfalso. apply Ha, Hp, E.
Qed.

(** X16.  The ISBN taken from a volume of the book search: when the volume
    lists an identifier of type ISBN_13 the first such is taken, wherever it
    stands and whatever ISBN_10 entries come before it; when it lists none
    but one of type ISBN_10, the first of those; when it lists neither, or
    has no list, the ISBN is null. *)
Theorem isbn13_preferred (ids : list Identifier) :
  (forall i x, FirstAt (fun y => idType y = lit "ISBN_13") ids i x ->
     isbnOfVolume (Some ids) = identifier x) /\
  (Forall (fun y => idType y <> lit "ISBN_13") ids ->
   forall i x, FirstAt (fun y => idType y = lit "ISBN_10") ids i x ->
     isbnOfVolume (Some ids) = identifier x) /\
  (Forall (fun y => idType y <> lit "ISBN_13") ids ->
   Forall (fun y => idType y <> lit "ISBN_10") ids ->
     isbnOfVolume (Some ids) = Null) /\
  isbnOfVolume None = Null.
Proof.
  assert (Hfirst : forall t i x, FirstAt (fun y => idType y = t) ids i x ->
            List.find (fun id => bool_decide (idType id = t)) ids = Some x).
  { intros t i x (Hx & Hp & Hf). apply (find_FirstAt _ ids i).
    split; [exact Hx|]. split; [apply bool_decide_eq_true_2, Hp|].
    intros j y Hj Hy Hc. apply bool_decide_eq_true in Hc. apply (Hf j y Hj Hy Hc). }
  assert (Hnone : forall t, Forall (fun y => idType y <> t) ids ->
            List.find (fun id => bool_decide (idType id = t)) ids = None).
  { intros t Hall. apply (find_none_Forall _ (fun y => idType y = t)); [|exact Hall].
    intros y Hy. apply bool_decide_eq_true in Hy. exact Hy. }
  unfold isbnOfVolume. split; [|split; [|split]].
  - intros i x Hx. rewrite (Hfirst _ i x Hx). reflexivity.
  - intros H13 i x Hx. rewrite (Hnone _ H13), (Hfirst _ i x Hx). reflexivity.
  - intros H13 H10. rewrite (Hnone _ H13), (Hnone _ H10). reflexivity.
  - reflexivity.
Qed.

Lemma isbn13_preferred_witness :
  isbnOfVolume (Some [ {| idType := lit "ISBN_10"; identifier := Str (lit "0441013597") |};
                       {| idType := lit "ISBN_13"; identifier := Str (lit "9780441013593") |} ])
  = Str (lit "9780441013593").
Proof.
  apply (proj1 (isbn13_preferred
                  [ {| idType := lit "ISBN_10"; identifier := Str (lit "0441013597") |};
                    {| idType := lit "ISBN_13"; identifier := Str (lit "9780441013593") |} ])
               1%nat
               {| idType := lit "ISBN_13"; identifier := Str (lit "9780441013593") |}).
  split; [reflexivity|]. split; [reflexivity|].
  intros [|j] y Hj Hy; [|lia]. injection Hy as <-. vm_compute. discriminate.
Defined.

(** ** The admin list *)

(** X17.  A user is an admin exactly when signed in with the listed e-mail
    address, letter case ignored: the answer depends on the address in
    lower case only, and nobody signed out is an admin. *)
Theorem isAdmin_spec (user : option User) :
  (isAdmin user = true <->
   exists u, user = Some u /\ toLowerCase (email u) = lit "sharon@tutorshiba.com") /\
  (forall u u', toLowerCase (email u) = toLowerCase (email u') ->
                isAdmin (Some u) = isAdmin (Some u')).
Proof.
  split.
  - destruct user as [u|]; simpl.
    + rewrite orb_false_r, bool_decide_eq_true. split.
      * intros H. exists u. split; [reflexivity|]. rewrite <- H. reflexivity.
      * intros (u' & [= <-] & H). rewrite H. reflexivity.
    + split; [discriminate|]. intros (u & H & _). discriminate H.
  - intros u u' H. simpl. rewrite H. reflexivity.
Qed.

Lemma isAdmin_spec_witness :
  isAdmin (Some {| email := lit "SHARON@tutorshiba.COM" |}) = isAdmin sampleAdmin.
Proof.
  apply (proj2 (isAdmin_spec None)). reflexivity.
Defined.

(** ** The rows behind the drafts *)

Section RowBounds.
Context {host : Host}.

Lemma importLoop_lines_bounded (c : Columns) (clock : nat -> Z) (rows : list str) :
  forall (i : nat) (seen : gset str) (pushed : list BookData),
  exists (news : list BookData) (lines : list nat),
    batch (importLoop c clock i rows seen pushed) = pushed ++ news /\
    Forall2 OffsetByRow lines news /\
    Forall (fun k => (i <= k < i + length rows)%nat) lines /\
    (length news <= length rows)%nat.
Proof.
  induction rows as [|row rows IH]; intros i seen pushed; simpl.
  - exists [], []. rewrite app_nil_r.
    split; [reflexivity|]. split; [constructor|]. split; [constructor|simpl; lia].
  - destruct (importRow c (clock i) i row seen) as [seen' out] eqn:Hrow.
    destruct out as [|d|e]; simpl.
    + destruct (IH (S i) seen' pushed) as (news & lines & H1 & H2 & H3 & H4).
      exists news, lines. repeat split; try assumption; [|lia].
      eapply Forall_impl; [exact H3|]. simpl. lia.
    + destruct (IH (S i) seen' (pushed ++ [d])) as (news & lines & H1 & H2 & H3 & H4).
      apply importRow_pushed in Hrow.
      destruct Hrow as (_ & _ & _ & Hd & t & Hp & Hs & _).
      exists (d :: news), (i :: lines). rewrite H1, <- app_assoc.
      repeat split.
      * constructor; [|exact H2]. exists t. rewrite Hd. auto.
      * constructor; [lia|]. eapply Forall_impl; [exact H3|]. simpl. lia.
      * simpl. lia.
    + exists [], []. rewrite app_nil_r.
      split; [reflexivity|]. split; [constructor|]. split; [constructor|simpl; lia].
Qed.

(** X18.  The drafts of an import come from the lines under the header
    only: each carries the offset of a line from 1 up to the number of line
    breaks of the text, so the header line gives no draft, and there are no
    more drafts than line breaks. *)
Theorem import_rows_bound (user : option User) (confirmed : bool) (text : str)
    (myBooks : list Book) (clock : nat -> Z) (accepted : BookData -> bool) :
  let drafts :=
    addedDocs (events (migrateFromGoogleSheet user confirmed (inr text) myBooks
                         clock accepted)) in
  (length drafts <= countChar newline text)%nat /\
  exists lines,
    Forall2 OffsetByRow lines drafts /\
    Forall (fun k => (1 <= k <= countChar newline text)%nat) lines.
Proof.
  cbv zeta. rewrite migrate_drafts.
  destruct (isAdmin user && confirmed);
    [|split; [simpl; lia|exists []; split; constructor]].
  unfold importSheet.
  pose proof (splitCharAux_length newline text []) as Hlen.
  change "010"%char with newline. unfold splitChar.
  destruct (splitCharAux newline text []) as [|header rows] eqn:E; [discriminate Hlen|].
  simpl in Hlen. injection Hlen as Hlen.
  destruct (length (header :: rows) <? 2)%nat; simpl draftsOf;
    [split; [simpl; lia|exists []; split; constructor]|].
  simpl tl.
  match goal with |- context [importLoop ?c ?k ?i rows ?seen []] =>
    destruct (importLoop_lines_bounded c k rows i seen [])
      as (news & lines & H1 & H2 & H3 & H4)
  end.
  rewrite H1. simpl. split; [lia|].
  exists lines. split; [exact H2|].
  eapply Forall_impl; [exact H3|]. simpl. lia.
Qed.
End RowBounds.
